(** * F1 performance attribution: the master-analysis pipeline

    A shallow embedding of [master_analysis.py]: the three per-race
    extractors ([get_top_speeds], [get_start_performance],
    [get_stint_performance]), the per-race join and the season loop of
    [main].

    Conventions of the embedding.
    - A pandas DataFrame is a list of rows, in row order; a frame indexed
      by driver is a list of pairs (index label, payload).
    - A float64 column holds binary64 values ([PrimFloat.float]); NaN is
      the missing value, as in pandas.
    - A timedelta column holds [option Z]: a number of nanoseconds, or
      [None] for NaT.
    - Sums over a column are taken left to right.  numpy adds in blocks
      of eight from eight values on and takes the products of [np.cov]
      through a library dot product, so a mean, a deviation or a slope
      over eight or more values can differ from the code's in the last
      place.  The exact evaluations below use fewer values, and no other
      statement depends on the order of a sum.
    - Driver labels are compared as they are: the provider gives
      upper-case abbreviations, which fastf1's pickers leave as they are.
    - A metric of the joined table is an [option float], [None] where the
      join found no partner; pandas holds NaN for that and for a partner
      that is NaN alike, which [cell] and [isna] express, and
      [race_columns] says which metric columns the table has. *)

From Stdlib Require Import List String ZArith Bool Floats Lia.
Import ListNotations.

Local Open Scope string_scope.
Local Open Scope list_scope.
Local Open Scope float_scope.

(** ** float64 helpers *)

Module F64.

(** int64 -> float64 conversion (exact below 2^53 in magnitude). *)
Definition of_Z (z : Z) : float :=
  match z with
  | Z0 => 0
  | Zpos _ => PrimFloat.of_uint63 (Uint63.of_Z z)
  | Zneg p => - PrimFloat.of_uint63 (Uint63.of_Z (Zpos p))
  end.

Definition of_nat (n : nat) : float := of_Z (Z.of_nat n).

Definition notnan (x : float) : bool := negb (PrimFloat.is_nan x).

(** Left-to-right sum. *)
Definition sum (l : list float) : float := fold_left PrimFloat.add l 0.

Definition dot (x y : list float) : float :=
  sum (map (fun p => fst p * snd p) (combine x y)).

(** Equality of column values as pandas' hash tables see it: IEEE
    equality, and all NaN are one value. *)
Definition same (x y : float) : bool :=
  (x =? y) || (PrimFloat.is_nan x && PrimFloat.is_nan y).

End F64.

(** ** The numpy, pandas and scipy operations the pipeline calls *)

Module Np.

(** [np.mean] of a Python list: NaN propagates, the empty list gives
    0/0 = NaN. *)
Definition mean (l : list float) : float :=
  F64.sum l / F64.of_nat (List.length l).

(** [np.amax] / [np.amin]: NaN propagates. *)
Definition pick (better : float -> float -> bool) (l : list float) : float :=
  match l with
  | [] => nan
  | x :: tl =>
      fold_left (fun m v =>
                   if PrimFloat.is_nan m then m
                   else if PrimFloat.is_nan v then v
                   else if better v m then v else m) tl x
  end.

Definition amax : list float -> float := pick (fun v m => m <? v).
Definition amin : list float -> float := pick (fun v m => v <? m).

End Np.

Module Pd.

(** Series reductions skip missing values ([skipna=True]). *)
Definition dropna (l : list float) : list float := filter F64.notnan l.

Definition mean (l : list float) : float :=
  let v := dropna l in F64.sum v / F64.of_nat (List.length v).

Definition min (l : list float) : float := Np.amin (dropna l).
Definition max (l : list float) : float := Np.amax (dropna l).

(** [Series.std()]: sample standard deviation ([ddof=1]); NaN when
    there are fewer than two values. *)
Definition std (l : list float) : float :=
  let v := dropna l in
  let count := List.length v in
  if (count <=? 1)%nat then nan
  else
    let avg := F64.sum v / F64.of_nat count in
    let sqr := map (fun x => (avg - x) * (avg - x)) v in
    PrimFloat.sqrt (F64.sum sqr / F64.of_nat (count - 1)).

(** [Series.unique()], in order of first appearance. *)
Fixpoint unique_by {A : Type} (eqb : A -> A -> bool) (l : list A) : list A :=
  match l with
  | [] => []
  | x :: tl => x :: filter (fun y => negb (eqb x y)) (unique_by eqb tl)
  end.

Definition unique_str : list string -> list string := unique_by String.eqb.
Definition unique_f64 : list float -> list float := unique_by F64.same.

End Pd.

Module Scipy.

(** [scipy.stats.linregress(x, y).slope].  The call raises ValueError
    ([None]) on empty input and when all x values are identical;
    otherwise the slope is cov(x, y) / var(x), both taken with the
    1/N normalisation of [np.cov(x, y, bias=1)]. *)
Definition linregress_slope (x y : list float) : option float :=
  let n := List.length x in
  if (n =? 0)%nat || (List.length y =? 0)%nat then None
  else if (Np.amax x =? Np.amin x) && (1 <? n)%nat then None
  else
    let xmean := Np.mean x in
    let ymean := Np.mean y in
    let dx := map (fun v => v - xmean) x in
    let dy := map (fun v => v - ymean) y in
    let norm := 1 / F64.of_nat n in
    let ssxm := F64.dot dx dx * norm in
    let ssxym := F64.dot dx dy * norm in
    Some (ssxym / ssxm).

End Scipy.

(** ** Data model: what a loaded race session provides *)

Definition Timedelta := option Z.

Definition isnull (t : Timedelta) : bool :=
  match t with None => true | Some _ => false end.

(** [Timedelta.total_seconds()]; NaT becomes NaN. *)
Definition total_seconds (t : Timedelta) : float :=
  match t with
  | None => nan
  | Some ns => F64.of_Z ns / 1e9
  end.

(** One row of [session.laps]. *)
Record Lap := mkLap {
  lap_Driver : string;
  lap_Team : string;
  lap_Stint : float;
  lap_LapNumber : float;
  lap_LapTime : Timedelta;
  lap_SpeedST : float;
  lap_TrackStatus : string;
  lap_PitInTime : Timedelta;
  lap_PitOutTime : Timedelta;
  lap_Position : float
}.

(** One row of [session.results]. *)
Record Result := mkResult {
  res_Abbreviation : string;
  res_TeamName : string;
  res_GridPosition : float;
  res_Position : float;
  res_Points : float
}.

Record Session := mkSession {
  results : list Result;
  laps : list Lap
}.

(** A frame indexed by driver. *)
Definition Indexed (V : Type) := list (string * V).

(** ** fastf1's lap pickers *)

(** [pick_drivers] with a driver abbreviation, as read from the Driver
    column. *)
Definition pick_drivers (driver : string) (ls : list Lap) : list Lap :=
  filter (fun l => String.eqb (lap_Driver l) driver) ls.

Definition pick_laps (n : float) (ls : list Lap) : list Lap :=
  filter (fun l => lap_LapNumber l =? n) ls.

Definition pick_wo_box (ls : list Lap) : list Lap :=
  filter (fun l => isnull (lap_PitInTime l) && isnull (lap_PitOutTime l)) ls.

Definition pick_track_status (status : string) (ls : list Lap) : list Lap :=
  filter (fun l => String.eqb (lap_TrackStatus l) status) ls.

(** ** get_top_speeds *)

(** Group keys come out sorted ([groupby] sorts its keys). *)
Fixpoint insert_sorted (s : string) (l : list string) : list string :=
  match l with
  | [] => [s]
  | x :: tl => if String.leb s x then s :: l else x :: insert_sorted s tl
  end.

Definition sort_keys (l : list string) : list string :=
  fold_right insert_sorted [] l.

Definition group_keys (l : list string) : list string :=
  sort_keys (Pd.unique_str l).

(** [laps.groupby('Driver')['SpeedST'].max().to_frame(name='TopSpeedST')].
    On a laps frame that has its columns nothing raises, so the [except]
    branch (which returns the empty frame) is not reached. *)
Definition get_top_speeds (ls : list Lap) : Indexed float :=
  map (fun driver => (driver, Pd.max (map lap_SpeedST (pick_drivers driver ls))))
      (group_keys (map lap_Driver ls)).

(** ** get_start_performance *)

(** [pd.merge(grid_df, lap_1_df, left_on='Abbreviation', right_on='Driver')]:
    the default inner merge, rows in the order of the left keys. *)
Definition merge_grid_lap1 (grid_df : list Result) (lap_1_df : list Lap)
  : list (Result * Lap) :=
  flat_map (fun g =>
              map (fun l => (g, l))
                  (filter (fun l => String.eqb (res_Abbreviation g) (lap_Driver l))
                          lap_1_df))
           grid_df.

(** On a loaded session none of the steps raises, so the [except] branch
    (which returns the empty frame) is not reached. *)
Definition get_start_performance (session : Session) : Indexed float :=
  let grid_df := results session in
  let lap_1_df := pick_laps 1 (laps session) in
  let start_analysis := merge_grid_lap1 grid_df lap_1_df in
  let start_analysis :=
    filter (fun r => 0 <? res_GridPosition (fst r)) start_analysis in
  map (fun r => (lap_Driver (snd r),
                 res_GridPosition (fst r) - lap_Position (snd r)))
      start_analysis.

(** ** get_stint_performance *)

(** The two lists a driver's stint loop appends to. *)
Record Lists := mkLists {
  driver_degs : list float;
  driver_cons : list float
}.

(** How one pass through the body of the stint loop ends: it runs to its
    last statement, leaves through [continue], or raises. *)
Inductive Completion (A : Type) : Type :=
| Normal (a : A)
| Continue
| Raise.
Arguments Normal {A} a.
Arguments Continue {A}.
Arguments Raise {A}.

(** Statements of the loop body: they read and update the lists, and what
    was appended before a [continue] or an exception stays appended. *)
Definition Body (A : Type) : Type := Lists -> Completion A * Lists.

Definition bind {A B : Type} (m : Body A) (k : A -> Body B) : Body B :=
  fun s =>
    match m s with
    | (Normal a, s') => k a s'
    | (Continue, s') => (Continue, s')
    | (Raise, s') => (Raise, s')
    end.

Notation "x <- m ;; k" := (bind m (fun x => k))
  (at level 61, m at next level, right associativity).
Notation "m ;; k" := (bind m (fun _ => k))
  (at level 61, right associativity).

Definition continue_if (b : bool) : Body unit :=
  fun s => if b then (Continue, s) else (Normal tt, s).

(** A library call that may raise. *)
Definition call {A : Type} (r : option A) : Body A :=
  fun s => match r with Some a => (Normal a, s) | None => (Raise, s) end.

Definition append_cons (c : float) : Body unit :=
  fun s => (Normal tt, mkLists (driver_degs s) (driver_cons s ++ [c])).

Definition append_degs (d : float) : Body unit :=
  fun s => (Normal tt, mkLists (driver_degs s ++ [d]) (driver_cons s)).

Definition LapTimeSeconds (l : Lap) : float := total_seconds (lap_LapTime l).

(** [laps_stint.pick_wo_box().pick_track_status('1')] *)
Definition clean_laps (laps_stint : list Lap) : list Lap :=
  pick_track_status "1" (pick_wo_box laps_stint).

(** [clean_laps[clean_laps['LapTimeSeconds'] < clean_laps['LapTimeSeconds'].mean() + 5]] *)
Definition final_laps (clean : list Lap) : list Lap :=
  filter (fun l => LapTimeSeconds l <? Pd.mean (map LapTimeSeconds clean) + 5)
         clean.

(** [final_laps['LapNumber'] - final_laps['Stint'].min() + 1] *)
Definition StintLap (final : list Lap) : list float :=
  map (fun l => lap_LapNumber l - Pd.min (map lap_Stint final) + 1) final.

(** [driver_laps[driver_laps['Stint'] == stint]] *)
Definition laps_stint (driver_laps : list Lap) (stint : float) : list Lap :=
  filter (fun l => lap_Stint l =? stint) driver_laps.

(** The body of [for stint in stints], inside its [try]. *)
Definition stint_body (driver_laps : list Lap) (stint : float) : Body unit :=
  let clean := clean_laps (laps_stint driver_laps stint) in
  continue_if (List.length clean <? 3)%nat ;;
  let final := final_laps clean in
  continue_if (List.length final <? 3)%nat ;;
  let consistency := Pd.std (map LapTimeSeconds final) in
  append_cons consistency ;;
  degradation <- call (Scipy.linregress_slope (StintLap final)
                                              (map LapTimeSeconds final)) ;;
  append_degs degradation.

(** [try: ... except Exception: continue]: whatever way the body ends, the
    loop goes on with the lists as the body left them. *)
Definition try_stint (driver_laps : list Lap) (s : Lists) (stint : float) : Lists :=
  snd (stint_body driver_laps stint s).

Definition stint_loop (driver_laps : list Lap) (stints : list float) : Lists :=
  fold_left (try_stint driver_laps) stints (mkLists [] []).

(** One driver's contribution to [driver_stints]. *)
Definition driver_record (ls : list Lap) (driver : string)
  : list (string * (float * float)) :=
  let driver_laps := pick_drivers driver ls in
  let stints := Pd.unique_f64 (map lap_Stint driver_laps) in
  let s := stint_loop driver_laps stints in
  match driver_degs s with
  | [] => []
  | _ :: _ => [(driver, (Np.mean (driver_degs s), Np.mean (driver_cons s)))]
  end.

(** Columns of the returned frame: (AvgDegradation, AvgConsistency). *)
Definition get_stint_performance (ls : list Lap) : Indexed (float * float) :=
  flat_map (driver_record ls) (Pd.unique_str (map lap_Driver ls)).

(** ** The per-race join *)

(** One row of the per-race table and of the master table.  A metric is
    [None] where the join found no partner for the row: pandas then has
    NaN in the column, or no such column in the per-race frame when the
    extractor returned the empty frame, which [pd.concat] fills with NaN
    in the master table. *)
Record RaceRow := mkRaceRow {
  Driver : string;
  TeamName : string;
  Position : float;
  Points : float;
  TopSpeedST : option float;
  PositionsGained : option float;
  AvgDegradation : option float;
  AvgConsistency : option float;
  RaceName : string;
  RaceDate : Z;
  Season : Z
}.

Definition matches {V : Type} (k : string) (right : Indexed V) : list (string * V) :=
  filter (fun kv => String.eqb (fst kv) k) right.

(** Left join of a frame on the index of another: every left row is kept,
    once per partner on the right, or once with a null when it has none. *)
Definition join_left {A V : Type} (key : A -> string)
           (left : list A) (right : Indexed V) : list (A * option V) :=
  flat_map (fun a =>
              match matches (key a) right with
              | [] => [(a, None)]
              | ms => map (fun kv => (a, Some (snd kv))) ms
              end)
           left.

Record Event := mkEvent {
  EventName : string;
  EventDate : Z;
  EventFormat : string
}.

(** [results.set_index('Driver').join([top_speeds, start_perf, stint_perf])],
    with the three event columns added. *)
Definition race_df (session : Session) (event : Event) (year : Z) : list RaceRow :=
  let top_speeds := get_top_speeds (laps session) in
  let start_perf := get_start_performance session in
  let stint_perf := get_stint_performance (laps session) in
  let j1 := join_left res_Abbreviation (results session) top_speeds in
  let j2 := join_left (fun r => res_Abbreviation (fst r)) j1 start_perf in
  let j3 := join_left (fun r => res_Abbreviation (fst (fst r))) j2 stint_perf in
  map (fun r =>
         match r with
         | (((res, speed), gained), stint) =>
             mkRaceRow (res_Abbreviation res) (res_TeamName res)
                       (res_Position res) (res_Points res)
                       speed gained
                       (option_map fst stint) (option_map snd stint)
                       (EventName event) (EventDate event) year
         end)
      j3.

(** ** main *)

(** The data provider: each call returns its value or raises ([None]).
    [get_session] stands for [fastf1.get_session(year, name, 'R')]
    followed by [session.load()]. *)
Record Fastf1 := mkFastf1 {
  get_event_schedule : Z -> option (list Event);
  get_session : Z -> string -> option Session
}.

Definition YEARS_TO_ANALYZE : list Z := [2025; 2024; 2023; 2022; 2021]%Z.

(** The [try] block of one race: a race that raises is logged and leaves
    [all_race_data] as it was. *)
Definition try_race (api : Fastf1) (year : Z)
           (all_race_data : list (list RaceRow)) (event : Event)
  : list (list RaceRow) :=
  match get_session api year (EventName event) with
  | None => all_race_data
  | Some session => all_race_data ++ [race_df session event year]
  end.

(** The body of the event loop: testing events are passed over. *)
Definition event_step (api : Fastf1) (year : Z)
           (all_race_data : list (list RaceRow)) (event : Event)
  : list (list RaceRow) :=
  if String.eqb (EventFormat event) "testing" then all_race_data
  else try_race api year all_race_data event.

(** The events whose format is not 'testing'. *)
Definition is_race (event : Event) : bool :=
  negb (String.eqb (EventFormat event) "testing").

(** [for i, event in schedule.iloc[1:].iterrows()] *)
Definition event_loop (api : Fastf1) (year : Z) (schedule : list Event)
           (all_race_data : list (list RaceRow)) : list (list RaceRow) :=
  fold_left (event_step api year) (skipn 1 schedule) all_race_data.

Inductive Exn : Type :=
| ScheduleError (year : Z)
| NoObjectsToConcatenate.

(** [for year in YEARS_TO_ANALYZE]; the schedule is fetched outside any
    [try], so its exception leaves [main]. *)
Fixpoint year_loop (api : Fastf1) (years : list Z)
         (all_race_data : list (list RaceRow)) : Exn + list (list RaceRow) :=
  match years with
  | [] => inr all_race_data
  | year :: rest =>
      match get_event_schedule api year with
      | None => inl (ScheduleError year)
      | Some schedule => year_loop api rest (event_loop api year schedule all_race_data)
      end
  end.

(** [pd.concat] raises ValueError on an empty list of frames. *)
Definition pd_concat (frames : list (list RaceRow)) : Exn + list RaceRow :=
  match frames with
  | [] => inl NoObjectsToConcatenate
  | _ :: _ => inr (List.concat frames)
  end.

(** The file [season_2021-2025_analysis.csv]: absent, or the table last
    written to it. *)
Definition File := option (list RaceRow).

(** [main] as a transformer of the output file, with the exception it
    ends in, if any. *)
Definition main (api : Fastf1) (file : File) : option Exn * File :=
  match year_loop api YEARS_TO_ANALYZE [] with
  | inl e => (Some e, file)
  | inr all_race_data =>
      match pd_concat all_race_data with
      | inl e => (Some e, file)
      | inr master_df => (None, Some master_df)
      end
  end.

From Stdlib Require Import Sorted.

(** ** What a run of the loops amounts to *)

(** How the body of the stint loop ends for a stint; the lists it starts
    from do not bear on it. *)
Definition completion_of (driver_laps : list Lap) (stint : float) : Completion unit :=
  fst (stint_body driver_laps stint (mkLists [] [])).

Definition ran_through (driver_laps : list Lap) (stint : float) : bool :=
  match completion_of driver_laps stint with Normal _ => true | _ => false end.

Definition raised (driver_laps : list Lap) (stint : float) : bool :=
  match completion_of driver_laps stint with Raise => true | _ => false end.

(** The frame of one race, if its session loads. *)
Definition race_frame (api : Fastf1) (year : Z) (event : Event)
  : list (list RaceRow) :=
  match get_session api year (EventName event) with
  | Some session => [race_df session event year]
  | None => []
  end.

(** The frames of one season, race by race. *)
Definition season_frames (api : Fastf1) (year : Z) (schedule : list Event)
  : list (list RaceRow) :=
  flat_map (race_frame api year) (filter is_race (skipn 1 schedule)).

Definition schedule_of (api : Fastf1) (year : Z) : list Event :=
  match get_event_schedule api year with
  | Some schedule => schedule
  | None => []
  end.

(** ** weekly_pull.py *)

Inductive LoadError : Type :=
| SessionNotAvailableError
| DataNotLoadedError
| OtherError.

(** The provider as the weekly pull uses it: [load_session] stands for
    [fastf1.get_session(year, name, session_name)] followed by
    [session.load()], and returns the exception raised, if any. *)
Record Server := mkServer {
  event_schedule : Z -> option (list Event);
  load_session : Z -> string -> string -> option LoadError
}.

(** What the script does, in order: the sessions it requests and the
    lines it logs. *)
Inductive Entry : Type :=
| CacheNotFound
| CacheEnabled
| CheckingSeason (year : Z)
| CheckingEvent (name : string) (year : Z)
| GetSession (year : Z) (name session_name : string)
| UpToDate (session_name : string)
| NotYetAvailable (session_name : string)
| CouldNotLoad (session_name : string)
| CheckComplete (year : Z)
| ScheduleFailed (year : Z).

Definition SESSIONS : list string := ["Qualifying"; "Race"].

(** The body of [for session_name in SESSIONS]: each of the three ways
    the [try] ends logs one line and lets the loop go on. *)
Definition check_session (server : Server) (year : Z) (event : Event)
           (session_name : string) : list Entry :=
  GetSession year (EventName event) session_name
  :: match load_session server year (EventName event) session_name with
     | None => [UpToDate session_name]
     | Some SessionNotAvailableError => [NotYetAvailable session_name]
     | Some _ => [CouldNotLoad session_name]
     end.

(** The body of the event loop. *)
Definition check_event (server : Server) (year : Z)
           (trace : list Entry) (event : Event) : list Entry :=
  if String.eqb (EventFormat event) "testing" then trace
  else trace
       ++ CheckingEvent (EventName event) year
       :: flat_map (check_session server year event) SESSIONS.

(** The script, given whether the cache directory exists, the current
    year and the current time. *)
Definition weekly_pull (cache_exists : bool) (server : Server)
           (CURRENT_YEAR now : Z) : list Entry :=
  if negb cache_exists then [CacheNotFound]
  else
    [CacheEnabled; CheckingSeason CURRENT_YEAR]
    ++ match event_schedule server CURRENT_YEAR with
       | None => [ScheduleFailed CURRENT_YEAR]
       | Some schedule =>
           let races_to_check :=
             filter (fun e => (EventDate e <? now)%Z) schedule in
           fold_left (check_event server CURRENT_YEAR)
                     (skipn 1 races_to_check) []
           ++ [CheckComplete CURRENT_YEAR]
       end.

(** The sessions requested along a trace: (event name, session name). *)
Definition session_calls (trace : list Entry) : list (string * string) :=
  flat_map (fun entry =>
              match entry with
              | GetSession _ name session_name => [(name, session_name)]
              | _ => []
              end)
           trace.

(** The lines that report how a request ended. *)
Definition is_outcome (entry : Entry) : bool :=
  match entry with
  | UpToDate _ | NotYetAvailable _ | CouldNotLoad _ => true
  | _ => false
  end.

Definition schedule_of_server (server : Server) (year : Z) : list Event :=
  match event_schedule server year with
  | Some schedule => schedule
  | None => []
  end.

(** The events the script checks: those dated before [now], without the
    first of them, without testing events. *)
Definition events_to_check (schedule : list Event) (now : Z) : list Event :=
  filter is_race (skipn 1 (filter (fun e => (EventDate e <? now)%Z) schedule)).

(** ** pages/2_Race_Analyzer.py *)

(** [get_race_schedule]: the names of the events that are not testing;
    the empty list when the schedule cannot be fetched. *)
Definition get_race_schedule (api : Fastf1) (year : Z) : list string :=
  match get_event_schedule api year with
  | Some schedule => map EventName (filter is_race schedule)
  | None => []
  end.

(** A row of [session.laps] with its Compound column, [None] where the
    value is missing. *)
Record CompoundLap := mkCompoundLap {
  lap_row : Lap;
  lap_Compound : option string
}.

Definition on_compound (compound : string) (l : CompoundLap) : bool :=
  match lap_Compound l with
  | Some c => String.eqb c compound
  | None => false
  end.

(** [winner_laps['Compound'].dropna().unique()] *)
Definition compounds (winner_laps : list CompoundLap) : list string :=
  Pd.unique_str
    (flat_map (fun l => match lap_Compound l with Some c => [c] | None => [] end)
              winner_laps).

(** What the degradation loop shows for one compound. *)
Inductive Shown : Type :=
| NotEnoughCleanLaps (compound : string)
| Scatter (compound : string) (StintLap_x LapTimeSeconds_y : list float).

(** The body of [for compound in compounds]. *)
Definition compound_step (winner_laps : list CompoundLap) (compound : string)
  : list Shown :=
  let stint_laps := map lap_row (filter (on_compound compound) winner_laps) in
  let clean := clean_laps stint_laps in
  if (List.length clean <? 3)%nat then [NotEnoughCleanLaps compound]
  else
    let final := final_laps clean in
    if (2 <? List.length final)%nat
    then [Scatter compound (StintLap final) (map LapTimeSeconds final)]
    else [].

Definition degradation_charts (winner_laps : list CompoundLap) : list Shown :=
  flat_map (compound_step winner_laps) (compounds winner_laps).

(** The degradation section of the page, inside its [try]: [None] when an
    exception reaches the [except] (a warning is shown and no chart).
    [results.iloc[0]] raises on an empty results table; the driver shown
    is the one picked in the select box, or the winner when nothing is
    picked. *)
Definition degradation_section (results : list Result) (laps : list CompoundLap)
           (selected_driver_deg : option string) : option (string * list Shown) :=
  match results with
  | [] => None
  | winner :: _ =>
      let winner_abbr :=
        match selected_driver_deg with
        | Some driver =>
            if String.eqb driver "" then res_Abbreviation winner else driver
        | None => res_Abbreviation winner
        end in
      let winner_laps :=
        filter (fun l => String.eqb (lap_Driver (lap_row l)) winner_abbr) laps in
      Some (winner_abbr, degradation_charts winner_laps)
  end.

(** ** The per-race table as pandas holds it *)

(** A float cell has one null, NaN: a cell the join left without a
    partner and a cell whose partner holds NaN are the same cell. *)
Definition cell (o : option float) : float :=
  match o with
  | Some v => v
  | None => nan
  end.

Definition isna (o : option float) : bool := PrimFloat.is_nan (cell o).

Definition metric_columns : list string :=
  ["TopSpeedST"; "PositionsGained"; "AvgDegradation"; "AvgConsistency"].

(** The columns the stint frame brings to the join: the frame built from
    [driver_stints] has two, and [pd.DataFrame()], returned when
    [driver_stints] is empty, has none.  The frames of the two other
    extractors have their column also when they have no row. *)
Definition stint_columns (ls : list Lap) : list string :=
  match get_stint_performance ls with
  | [] => []
  | _ :: _ => ["AvgDegradation"; "AvgConsistency"]
  end.

(** The columns of the per-race table, beside its index Driver. *)
Definition race_columns (session : Session) : list string :=
  ["TeamName"; "Position"; "Points"]
  ++ ["TopSpeedST"] ++ ["PositionsGained"] ++ stint_columns (laps session)
  ++ ["RaceName"; "RaceDate"; "Season"].

Definition metric_of (row : RaceRow) (column : string) : option float :=
  if String.eqb column "TopSpeedST" then TopSpeedST row
  else if String.eqb column "PositionsGained" then PositionsGained row
  else if String.eqb column "AvgDegradation" then AvgDegradation row
  else if String.eqb column "AvgConsistency" then AvgConsistency row
  else None.

(** The cell of a metric column on a row of the per-race table of a
    session; [None] when the table has no such column. *)
Definition race_cell (session : Session) (row : RaceRow) (column : string)
  : option float :=
  if existsb (String.eqb column) (race_columns session)
  then Some (cell (metric_of row column))
  else None.

(** The index of the extractor frame that feeds a metric column. *)
Definition extractor_index (session : Session) (column : string) : list string :=
  if String.eqb column "TopSpeedST"
  then map fst (get_top_speeds (laps session))
  else if String.eqb column "PositionsGained"
  then map fst (get_start_performance session)
  else if String.eqb column "AvgDegradation" || String.eqb column "AvgConsistency"
  then map fst (get_stint_performance (laps session))
  else [].

(** The line logged for the way a session request ended. *)
Definition outcome_of (answer : option LoadError) (session_name : string) : Entry :=
  match answer with
  | None => UpToDate session_name
  | Some SessionNotAvailableError => NotYetAvailable session_name
  | Some _ => CouldNotLoad session_name
  end.

(** What the script does for one event that is not a testing event. *)
Definition event_trace (server : Server) (year : Z) (event : Event) : list Entry :=
  [ CheckingEvent (EventName event) year;
    GetSession year (EventName event) "Qualifying";
    outcome_of (load_session server year (EventName event) "Qualifying") "Qualifying";
    GetSession year (EventName event) "Race";
    outcome_of (load_session server year (EventName event) "Race") "Race" ].

(** ** Sample data *)

Module Sample.

(** A green-flag lap away from the pit lane: driver, stint, lap number
    and lap time in nanoseconds. *)
Definition green (driver : string) (stint number : float) (ns : Z) : Lap :=
  mkLap driver "Team" stint number (Some ns) 300 "1" None None number.

(** Four laps of a first stint, 90 s to 93 s. *)
Definition rising : list Lap :=
  [ green "VER" 1 1 90000000000; green "VER" 1 2 91000000000;
    green "VER" 1 3 92000000000; green "VER" 1 4 93000000000 ].

(** Three laps of 90 s each. *)
Definition level : list Lap :=
  [ green "VER" 1 1 90000000000; green "VER" 1 2 90000000000;
    green "VER" 1 3 90000000000 ].

(** A second stint that starts on lap 20. *)
Definition late : list Lap :=
  [ green "VER" 2 20 90000000000; green "VER" 2 21 91000000000;
    green "VER" 2 22 92000000000 ].

(** A second stint whose three rows carry the same lap number, so that
    the regression has a single x value. *)
Definition repeated : list Lap :=
  [ green "VER" 2 20 90000000000; green "VER" 2 20 92000000000;
    green "VER" 2 20 94000000000 ].

Definition broken : list Lap := rising ++ repeated.

(** Four laps of 90 s and one of 96.25 s: the mean is 91.25 s, so the
    last lap sits exactly on mean + 5. *)
Definition slow : Lap := green "VER" 1 5 96250000000.

Definition boundary : list Lap :=
  [ green "VER" 1 1 90000000000; green "VER" 1 2 90000000000;
    green "VER" 1 3 90000000000; green "VER" 1 4 90000000000; slow ].

(** Two laps only. *)
Definition short : list Lap :=
  [ green "VER" 1 1 90000000000; green "VER" 1 2 91000000000 ].

(** Three laps, the last one 20 s slower: the outlier filter leaves two. *)
Definition spoiled : list Lap :=
  [ green "VER" 1 1 90000000000; green "VER" 1 2 90000000000;
    green "VER" 1 3 110000000000 ].

(** A lap with a given running position. *)
Definition running (driver : string) (number position : float) : Lap :=
  mkLap driver "Team" 1 number (Some 90000000000%Z) 300 "1" None None position.

(** HAM starts third and is fifth after lap 1; VER starts tenth and leads
    after lap 1; BOT has no grid position (0); ALB is classified but has
    no lap at all. *)
Definition start : Session :=
  mkSession
    [ mkResult "HAM" "Mercedes" 3 2 18; mkResult "VER" "Red Bull Racing" 10 1 25;
      mkResult "BOT" "Sauber" 0 15 0; mkResult "ALB" "Williams" 8 20 0 ]
    [ running "HAM" 1 5; running "VER" 1 1; running "BOT" 1 20;
      running "HAM" 2 4; running "VER" 2 1 ].

Definition race : Event := mkEvent "Bahrain Grand Prix" 0 "conventional".
Definition sprint : Event := mkEvent "Chinese Grand Prix" 1 "sprint_qualifying".
Definition testing : Event := mkEvent "Pre-Season Testing" 2 "testing".

(** An output file left by an earlier run. *)
Definition previous : File :=
  Some [ mkRaceRow "VER" "Red Bull Racing" 1 25 (Some 330) (Some 0)
                   (Some 0.5) (Some 0.25) "Bahrain Grand Prix" 0 2024 ].

(** A provider that has every schedule and no session. *)
Definition no_sessions : Fastf1 :=
  mkFastf1 (fun _ => Some [testing; race; sprint]) (fun _ _ => None).

End Sample.

(** ** More sample data *)

Module Scenario.

(** A lap with a given speed-trap value. *)
Definition trap (driver : string) (number speed : float) : Lap :=
  mkLap driver "Team" 1 number (Some 90000000000%Z) speed "1" None None number.

(** HAM with three trap speeds, one of them missing; VER with none. *)
Definition speeds : list Lap :=
  [ trap "VER" 1 nan; trap "HAM" 1 329.25; trap "HAM" 2 nan;
    trap "HAM" 3 331.5; trap "HAM" 4 330 ].

(** Every season has the same three-entry schedule; only the 2024
    Bahrain race has a session. *)
Definition one_race : Fastf1 :=
  mkFastf1
    (fun _ => Some [Sample.testing; Sample.race; Sample.sprint])
    (fun year name =>
       if (year =? 2024)%Z && String.eqb name "Bahrain Grand Prix"
       then Some Sample.start else None).

(** The same provider, without a schedule for 2023. *)
Definition no_2023 : Fastf1 :=
  mkFastf1
    (fun year => if (year =? 2023)%Z then None
                 else Some [Sample.testing; Sample.race; Sample.sprint])
    (get_session one_race).

(** A season that opens with a race, has a past sprint weekend and a
    race still to come (dates 10, 20 and 30). *)
Definition opener : Event := mkEvent "Australian Grand Prix" 10 "conventional".
Definition second : Event := mkEvent "Chinese Grand Prix" 20 "sprint_qualifying".
Definition third : Event := mkEvent "Japanese Grand Prix" 30 "conventional".

(** A server on which qualifying data is not yet available and the race
    fails to load. *)
Definition flaky : Server :=
  mkServer
    (fun _ => Some [Sample.testing; opener; second; third])
    (fun _ _ session_name =>
       if String.eqb session_name "Qualifying"
       then Some SessionNotAvailableError else Some OtherError).

(** A provider whose schedule opens with a race. *)
Definition no_testing : Fastf1 :=
  mkFastf1 (fun _ => Some [opener; second; third]) (fun _ _ => None).

(** Laps on a compound: a first stint of four laps on MEDIUM and a
    second stint of two laps on HARD. *)
Definition on_tyre (stint number : float) (ns : Z) (compound : string)
  : CompoundLap :=
  mkCompoundLap (Sample.green "VER" stint number ns) (Some compound).

Definition two_stints : list CompoundLap :=
  [ on_tyre 1 1 90000000000 "MEDIUM"; on_tyre 1 2 91000000000 "MEDIUM";
    on_tyre 1 3 92000000000 "MEDIUM"; on_tyre 1 4 93000000000 "MEDIUM";
    on_tyre 2 5 89000000000 "HARD"; on_tyre 2 6 89500000000 "HARD" ].

(** HAM's row of the table of [Sample.start]. *)
Definition ham_row : RaceRow :=
  mkRaceRow "HAM" "Mercedes" 2 18 (Some 300) (Some (-2)) None None
            "Bahrain Grand Prix" 0 2024.

(** ALB's row of the table of [Sample.start]. *)
Definition alb_row : RaceRow :=
  mkRaceRow "ALB" "Williams" 20 0 None None None None
            "Bahrain Grand Prix" 0 2024.

(** A race in which VER runs the stint of [Sample.rising] and ALB, who
    is classified, has no lap. *)
Definition with_stint : Session :=
  mkSession
    [ mkResult "VER" "Red Bull Racing" 1 1 25; mkResult "ALB" "Williams" 8 20 0 ]
    Sample.rising.

Definition ver_stint_row : RaceRow :=
  mkRaceRow "VER" "Red Bull Racing" 1 25 (Some 300) (Some 0)
            (Some 1) (Some (Pd.std [90; 91; 92; 93]))
            "Bahrain Grand Prix" 0 2024.

Definition alb_stint_row : RaceRow :=
  mkRaceRow "ALB" "Williams" 20 0 None None None None
            "Bahrain Grand Prix" 0 2024.

(** A race in which VER has laps but no trap speed on any of them. *)
Definition no_trap : Session :=
  mkSession
    [ mkResult "VER" "Red Bull Racing" 1 1 25 ]
    [ trap "VER" 1 nan ].

Definition no_trap_row : RaceRow :=
  mkRaceRow "VER" "Red Bull Racing" 1 25 (Some nan) (Some 0) None None
            "Bahrain Grand Prix" 0 2024.

End Scenario.

(** * Properties *)

(** ** Comparisons of float64 values *)

Section FloatOrder.

Lemma SFcompare_antisym (a b : spec_float) :
  SFcompare b a = option_map CompOpp (SFcompare a b).
Proof.
  destruct a as [sa| sa | |sa ma ea], b as [sb|sb| |sb mb eb]; simpl;
    try reflexivity;
    try (destruct sa; reflexivity);
    try (destruct sb; reflexivity);
    try (destruct sa, sb; reflexivity).
  destruct sa, sb; simpl; try reflexivity.
  - rewrite (Z.compare_antisym ea eb).
    destruct (ea ?= eb)%Z; simpl; try reflexivity.
    rewrite CompOpp_involutive. f_equal.
    exact (Pos.compare_cont_antisym mb ma Eq).
  - rewrite (Z.compare_antisym ea eb).
    destruct (ea ?= eb)%Z; simpl; try reflexivity.
    f_equal. symmetry. exact (Pos.compare_cont_antisym ma mb Eq).
Qed.

(** Equal values are not strictly ordered. *)
Lemma eqb_not_ltb (x y : float) : (x =? y) = true -> (x <? y) = false.
Proof.
  rewrite FloatAxioms.eqb_spec, ltb_spec. unfold SFeqb, SFltb.
  destruct (SFcompare (Prim2SF x) (Prim2SF y)) as [[ | | ]|]; congruence.
Qed.

(** The strict order is asymmetric. *)
Lemma ltb_asym (x y : float) : (x <? y) = true -> (y <? x) = false.
Proof.
  rewrite !ltb_spec. unfold SFltb.
  rewrite (SFcompare_antisym (Prim2SF x) (Prim2SF y)).
  destruct (SFcompare (Prim2SF x) (Prim2SF y)) as [[ | | ]|]; simpl; congruence.
Qed.

(** A value at most [y] is not strictly above [y]. *)
Lemma leb_not_ltb (x y : float) : (x <=? y) = true -> (y <? x) = false.
Proof.
  rewrite leb_spec, ltb_spec. unfold SFleb, SFltb.
  rewrite (SFcompare_antisym (Prim2SF x) (Prim2SF y)).
  destruct (SFcompare (Prim2SF x) (Prim2SF y)) as [[ | | ]|]; simpl; congruence.
Qed.

(** NaN is below nothing. *)
Lemma nan_not_ltb (x y : float) : PrimFloat.is_nan x = true -> (x <? y) = false.
Proof.
  unfold PrimFloat.is_nan. rewrite FloatAxioms.eqb_spec, ltb_spec.
  unfold SFeqb, SFltb.
  destruct (Prim2SF x) as [s|s| |s m e]; simpl; try reflexivity.
  - discriminate.
  - destruct s; discriminate.
  - destruct s; rewrite Z.compare_refl, Pos.compare_cont_refl; discriminate.
Qed.

(** What the filter [t < bound] lets through, and what it holds back:
    values above the bound, values equal to it, and missing values. *)
Lemma ltb_cases (t bound : float) :
  (t <? bound) = true ->
  (bound <? t) = false /\ (t =? bound) = false /\ PrimFloat.is_nan t = false.
Proof.
  intros H. repeat split.
  - now apply ltb_asym.
  - destruct (t =? bound) eqn:E; [|reflexivity].
    apply eqb_not_ltb in E. congruence.
  - destruct (PrimFloat.is_nan t) eqn:E; [|reflexivity].
    apply (nan_not_ltb t bound) in E. congruence.
Qed.

End FloatOrder.

(** ** The stint loop of get_stint_performance *)

Section StintLoop.

Variable driver_laps : list Lap.
Variable stint : float.

(** The body on a stint that passes both length tests. *)
Lemma stint_body_long (s : Lists) :
  (List.length (clean_laps (laps_stint driver_laps stint)) <? 3)%nat = false ->
  (List.length (final_laps (clean_laps (laps_stint driver_laps stint))) <? 3)%nat = false ->
  stint_body driver_laps stint s =
  let final := final_laps (clean_laps (laps_stint driver_laps stint)) in
  let s1 := mkLists (driver_degs s)
                    (driver_cons s ++ [Pd.std (map LapTimeSeconds final)]) in
  match Scipy.linregress_slope (StintLap final) (map LapTimeSeconds final) with
  | Some d => (Normal tt, mkLists (driver_degs s1 ++ [d]) (driver_cons s1))
  | None => (Raise, s1)
  end.
Proof.
  intros H1 H2. unfold stint_body, bind, continue_if.
  rewrite H1, H2. cbn.
  destruct (Scipy.linregress_slope _ _); reflexivity.
Qed.

(** The body on a stint that fails one of the length tests. *)
Lemma stint_body_short (s : Lists) :
  (List.length (clean_laps (laps_stint driver_laps stint)) < 3)%nat \/
  (List.length (final_laps (clean_laps (laps_stint driver_laps stint))) < 3)%nat ->
  stint_body driver_laps stint s = (Continue, s).
Proof.
  intros H. unfold stint_body, bind, continue_if.
  destruct (List.length (clean_laps (laps_stint driver_laps stint)) <? 3)%nat eqn:E1; [reflexivity|].
  destruct H as [H|H].
  - apply Nat.ltb_lt in H. congruence.
  - apply Nat.ltb_lt in H. rewrite H. reflexivity.
Qed.

(** When the regression raises on such a stint, the consistency appended
    just before stays in [driver_cons]. *)
Lemma stint_body_raises (s : Lists) :
  (List.length (clean_laps (laps_stint driver_laps stint)) <? 3)%nat = false ->
  (List.length (final_laps (clean_laps (laps_stint driver_laps stint))) <? 3)%nat = false ->
  let final := final_laps (clean_laps (laps_stint driver_laps stint)) in
  Scipy.linregress_slope (StintLap final) (map LapTimeSeconds final) = None ->
  stint_body driver_laps stint s
  = (Raise, mkLists (driver_degs s)
                    (driver_cons s ++ [Pd.std (map LapTimeSeconds final)])).
Proof.
  intros H1 H2 final H.
  rewrite (stint_body_long s H1 H2). cbv zeta. fold final. now rewrite H.
Qed.

End StintLoop.

(** The loop goes on to the next stint whatever the last one did. *)
Lemma stint_loop_snoc (driver_laps : list Lap) (stints : list float) (st : float) :
  stint_loop driver_laps (stints ++ [st])
  = try_stint driver_laps (stint_loop driver_laps stints) st.
Proof.
  unfold stint_loop. now rewrite fold_left_app.
Qed.

(** A loop over stints that all leave the lists alone. *)
Lemma stint_loop_idle (driver_laps : list Lap) (stints : list float) (s : Lists) :
  (forall st, In st stints -> try_stint driver_laps s st = s) ->
  fold_left (try_stint driver_laps) stints s = s.
Proof.
  induction stints as [|st tl IH]; intros H; simpl; [reflexivity|].
  rewrite (H st (or_introl eq_refl)).
  apply IH. intros st' Hin. apply H. now right.
Qed.

(** ** The outlier filter *)

(** C3, as the code has it: the filter keeps exactly the laps whose lap
    time in seconds is strictly below the mean lap time of the filtered
    set plus 5 seconds.  A lap above that bound is removed, and so is a
    lap whose time equals the bound exactly, and a lap without a lap
    time. *)
Theorem C3_outlier_filter_keeps_strictly_below (clean : list Lap) (l : Lap) :
  let bound := Pd.mean (map LapTimeSeconds clean) + 5 in
  (In l (final_laps clean) <->
   In l clean /\ (LapTimeSeconds l <? bound) = true)
  /\ ((bound <? LapTimeSeconds l) = true -> ~ In l (final_laps clean))
  /\ ((LapTimeSeconds l =? bound) = true -> ~ In l (final_laps clean))
  /\ (lap_LapTime l = None -> ~ In l (final_laps clean)).
Proof.
  intros bound.
  assert (Hin : In l (final_laps clean) <->
                In l clean /\ (LapTimeSeconds l <? bound) = true).
  { unfold final_laps. rewrite filter_In. reflexivity. }
  split; [exact Hin|].
  repeat split; intros H Hl; apply Hin in Hl; destruct Hl as [_ Hlt];
    destruct (ltb_cases _ _ Hlt) as (Ha & Hb & Hc).
  - congruence.
  - congruence.
  - unfold LapTimeSeconds in Hc. rewrite H in Hc. discriminate.
Qed.

(** C3 as first stated fails: the 96.25 s lap of [Sample.boundary] is
    held back although its time does not exceed mean + 5. *)
Lemma C3_boundary_lap_removed :
  ~ (forall (clean : list Lap) (l : Lap),
        In l clean ->
        (~ In l (final_laps clean) <->
         (Pd.mean (map LapTimeSeconds clean) + 5 <? LapTimeSeconds l) = true)).
Proof.
  intros H.
  specialize (H Sample.boundary Sample.slow).
  assert (Hin : In Sample.slow Sample.boundary).
  { unfold Sample.boundary. simpl. tauto. }
  destruct (H Hin) as [Hrem _].
  assert (Hgone : ~ In Sample.slow (final_laps Sample.boundary)).
  { unfold final_laps. rewrite filter_In. intros [_ Hlt].
    vm_compute in Hlt. discriminate. }
  specialize (Hrem Hgone). vm_compute in Hrem. discriminate.
Qed.

(** The same lap, through the theorem: equal to the bound, hence removed. *)
Lemma C3_outlier_filter_witness :
  In Sample.slow Sample.boundary
  /\ (LapTimeSeconds Sample.slow
      =? Pd.mean (map LapTimeSeconds Sample.boundary) + 5) = true
  /\ ~ In Sample.slow (final_laps Sample.boundary).
Proof.
  split; [unfold Sample.boundary; simpl; tauto|].
  split; [vm_compute; reflexivity|].
  apply (proj1 (proj2 (proj2
    (C3_outlier_filter_keeps_strictly_below Sample.boundary Sample.slow)))).
  vm_compute. reflexivity.
Defined.

(** ** Stints that are too short *)

(** C5: a stint whose clean lap set has fewer than 3 laps, before or
    after the outlier filter, leaves the loop body through [continue]:
    nothing is appended for it and nothing is raised. *)
Theorem C5_short_stint_emits_nothing
        (driver_laps : list Lap) (stint : float) (s : Lists) :
  let clean := clean_laps (laps_stint driver_laps stint) in
  (List.length clean < 3)%nat \/ (List.length (final_laps clean) < 3)%nat ->
  stint_body driver_laps stint s = (Continue, s)
  /\ try_stint driver_laps s stint = s.
Proof.
  intros clean H.
  pose proof (stint_body_short driver_laps stint s H) as Hb.
  split; [exact Hb|].
  unfold try_stint. rewrite Hb. reflexivity.
Qed.

(** Two laps before the filter; three before and two after it. *)
Lemma C5_short_stint_witness :
  (stint_body Sample.short 1 (mkLists [] []) = (Continue, mkLists [] [])
   /\ try_stint Sample.short (mkLists [] []) 1 = mkLists [] [])
  /\ (stint_body Sample.spoiled 1 (mkLists [] []) = (Continue, mkLists [] [])
      /\ try_stint Sample.spoiled (mkLists [] []) 1 = mkLists [] []).
Proof.
  split.
  - apply (C5_short_stint_emits_nothing Sample.short 1 (mkLists [] [])).
    left. vm_compute. lia.
  - apply (C5_short_stint_emits_nothing Sample.spoiled 1 (mkLists [] [])).
    right. vm_compute. lia.
Defined.

(** A driver without a stint of three clean laps gets no record. *)
Lemma driver_record_short_stints (ls : list Lap) (driver : string) :
  (forall st,
      let clean := clean_laps (laps_stint (pick_drivers driver ls) st) in
      (List.length clean < 3)%nat \/ (List.length (final_laps clean) < 3)%nat) ->
  driver_record ls driver = [].
Proof.
  intros H. unfold driver_record, stint_loop.
  rewrite stint_loop_idle; [reflexivity|].
  intros st _. unfold try_stint.
  rewrite (stint_body_short _ _ _ (H st)). reflexivity.
Qed.

(** ** The in-stint lap index *)

(** C1, at a second stint run on laps 20, 21 and 22: the index the code
    regresses on is the lap number minus the stint number plus 1, that
    is 19, 20, 21, where the lap number minus the stint's first lap
    number plus 1 is 1, 2, 3. *)
Theorem C1_stint_lap_counts_from_stint_number :
  let final := final_laps (clean_laps Sample.late) in
  map lap_LapNumber final = [20; 21; 22]
  /\ map lap_Stint final = [2; 2; 2]
  /\ map (fun l => lap_LapNumber l - Pd.min (map lap_LapNumber final) + 1) final
     = [1; 2; 3]
  /\ StintLap final = [19; 20; 21].
Proof.
  repeat split; vm_compute; reflexivity.
Qed.

(** ** A stint whose regression raises *)

(** C2, at a driver whose first stint is regular and whose second stint
    makes [linregress] raise: the second stint's consistency was appended
    before the call, so it is averaged into AvgConsistency, which differs
    from the value the first stint alone gives. *)
Theorem C2_raising_stint_leaves_its_consistency :
  let after_first := stint_loop Sample.broken [1] in
  after_first = mkLists [1] [Pd.std [90; 91; 92; 93]]
  /\ stint_body Sample.broken 2 after_first
     = (Raise, mkLists [1] [Pd.std [90; 91; 92; 93]; Pd.std [90; 92; 94]])
  /\ get_stint_performance Sample.broken
     = [("VER", (1, Np.mean [Pd.std [90; 91; 92; 93]; Pd.std [90; 92; 94]]))]
  /\ get_stint_performance Sample.rising
     = [("VER", (1, Np.mean [Pd.std [90; 91; 92; 93]]))]
  /\ (Np.mean [Pd.std [90; 91; 92; 93]]
      <? Np.mean [Pd.std [90; 91; 92; 93]; Pd.std [90; 92; 94]]) = true.
Proof.
  repeat split; vm_compute; reflexivity.
Qed.

(** ** Regression and deviation on exact data *)

(** C8: on a clean stint with lap times 90.0, 91.0, 92.0, 93.0 s over
    stint laps 1, 2, 3, 4 the slope recorded as degradation is exactly
    1.0, and on a stint of three laps of 90.0 s the recorded consistency
    is exactly 0.0. *)
Theorem C8_exact_slope_and_deviation :
  Scipy.linregress_slope [1; 2; 3; 4] [90; 91; 92; 93] = Some 1
  /\ Pd.std [90; 90; 90] = 0
  /\ StintLap (final_laps (clean_laps Sample.rising)) = [1; 2; 3; 4]
  /\ map LapTimeSeconds (final_laps (clean_laps Sample.rising)) = [90; 91; 92; 93]
  /\ driver_degs (stint_loop Sample.rising [1]) = [1]
  /\ map LapTimeSeconds (final_laps (clean_laps Sample.level)) = [90; 90; 90]
  /\ driver_cons (stint_loop Sample.level [1]) = [0].
Proof.
  repeat split; vm_compute; reflexivity.
Qed.

(** ** Index labels of the three extractors *)

Lemma unique_by_incl {A : Type} (eqb : A -> A -> bool) (l : list A) (x : A) :
  In x (Pd.unique_by eqb l) -> In x l.
Proof.
  induction l as [|a tl IH]; simpl; [tauto|].
  intros [H|H]; [now left|].
  apply filter_In in H. right. apply IH. tauto.
Qed.

Lemma unique_str_complete (l : list string) (x : string) :
  In x l -> In x (Pd.unique_str l).
Proof.
  unfold Pd.unique_str.
  induction l as [|a tl IH]; simpl; [tauto|].
  intros [H|H]; [now left|].
  destruct (String.eqb a x) eqn:E.
  - apply String.eqb_eq in E. now left.
  - right. apply filter_In. split; [now apply IH|]. now rewrite E.
Qed.

Lemma insert_sorted_In (s x : string) (l : list string) :
  In x (insert_sorted s l) <-> x = s \/ In x l.
Proof.
  induction l as [|a tl IH]; simpl.
  - intuition congruence.
  - destruct (String.leb s a); simpl; rewrite ?IH; intuition congruence.
Qed.

Lemma sort_keys_In (x : string) (l : list string) :
  In x (sort_keys l) <-> In x l.
Proof.
  unfold sort_keys.
  induction l as [|a tl IH]; simpl; [tauto|].
  rewrite insert_sorted_In, IH. intuition congruence.
Qed.

Lemma group_keys_In (x : string) (l : list string) :
  In x (group_keys l) <-> In x l.
Proof.
  unfold group_keys. rewrite sort_keys_In. split.
  - apply unique_by_incl.
  - apply unique_str_complete.
Qed.

(** Every driver with a lap has a top speed entry, and no one else. *)
Lemma get_top_speeds_keys (ls : list Lap) (d : string) :
  In d (map fst (get_top_speeds ls)) <-> In d (map lap_Driver ls).
Proof.
  unfold get_top_speeds. rewrite map_map. simpl. rewrite map_id.
  apply group_keys_In.
Qed.

(** The rows of the start frame, one by one. *)
Lemma get_start_performance_In (session : Session) (d : string) (pg : float) :
  In (d, pg) (get_start_performance session) <->
  exists g l,
    In g (results session) /\ In l (laps session)
    /\ (lap_LapNumber l =? 1) = true
    /\ res_Abbreviation g = d /\ lap_Driver l = d
    /\ (0 <? res_GridPosition g) = true
    /\ pg = res_GridPosition g - lap_Position l.
Proof.
  unfold get_start_performance, merge_grid_lap1, pick_laps.
  rewrite in_map_iff. split.
  - intros ([g l] & Heq & Hin). simpl in Heq.
    apply filter_In in Hin. destruct Hin as [Hin Hpos]. simpl in Hpos.
    apply in_flat_map in Hin. destruct Hin as (g' & Hg & Hin).
    apply in_map_iff in Hin. destruct Hin as (l' & Hpair & Hl).
    inversion Hpair; subst g' l'; clear Hpair.
    apply filter_In in Hl. destruct Hl as [Hl Hkey].
    apply filter_In in Hl. destruct Hl as [Hl Hone].
    apply String.eqb_eq in Hkey.
    inversion Heq; subst.
    exists g, l. repeat split; auto.
  - intros (g & l & Hg & Hl & Hone & Ha & Hd & Hpos & Hpg).
    exists (g, l). simpl. split; [congruence|].
    apply filter_In. split; [|exact Hpos].
    apply in_flat_map. exists g. split; [exact Hg|].
    apply in_map. apply filter_In. split.
    + apply filter_In. split; assumption.
    + apply String.eqb_eq. congruence.
Qed.

Lemma get_start_performance_keys (session : Session) (d : string) :
  In d (map fst (get_start_performance session)) ->
  In d (map res_Abbreviation (results session))
  /\ In d (map lap_Driver (pick_laps 1 (laps session))).
Proof.
  intros H. apply in_map_iff in H. destruct H as ([d' pg] & Heq & Hin).
  simpl in Heq. subst d'.
  apply get_start_performance_In in Hin.
  destruct Hin as (g & l & Hg & Hl & Hone & Ha & Hd & _).
  split.
  - apply in_map_iff. exists g. tauto.
  - apply in_map_iff. exists l. split; [exact Hd|].
    unfold pick_laps. apply filter_In. tauto.
Qed.

Lemma pick_laps_incl (n : float) (ls : list Lap) (d : string) :
  In d (map lap_Driver (pick_laps n ls)) -> In d (map lap_Driver ls).
Proof.
  intros H. apply in_map_iff in H. destruct H as (l & Hd & Hl).
  apply filter_In in Hl. apply in_map_iff. exists l. tauto.
Qed.

Lemma driver_record_key (ls : list Lap) (driver d : string) (v : float * float) :
  In (d, v) (driver_record ls driver) -> d = driver.
Proof.
  unfold driver_record.
  destruct (driver_degs _); simpl; [tauto|].
  intros [H|[]]. congruence.
Qed.

Lemma get_stint_performance_keys (ls : list Lap) (d : string) :
  In d (map fst (get_stint_performance ls)) -> In d (map lap_Driver ls).
Proof.
  intros H. apply in_map_iff in H. destruct H as ([d' v] & Heq & Hin).
  simpl in Heq. subst d'.
  unfold get_stint_performance in Hin.
  apply in_flat_map in Hin. destruct Hin as (driver & Hdr & Hin).
  apply driver_record_key in Hin. subst driver.
  now apply unique_by_incl in Hdr.
Qed.

(** ** The left join *)

Section JoinLeft.

Context {A V : Type}.
Variable key : A -> string.
Variable right : Indexed V.

Lemma join_left_keeps (left : list A) (a : A) :
  In a left -> exists o, In (a, o) (join_left key left right).
Proof.
  intros H. unfold join_left.
  destruct (matches (key a) right) as [|kv ms] eqn:E.
  - exists None. apply in_flat_map. exists a. rewrite E. simpl. tauto.
  - exists (Some (snd kv)). apply in_flat_map. exists a. rewrite E.
    simpl. tauto.
Qed.

Lemma join_left_In (left : list A) (a : A) (o : option V) :
  In (a, o) (join_left key left right) ->
  In a left /\ (forall v, o = Some v -> In (key a, v) right).
Proof.
  unfold join_left. intros H.
  apply in_flat_map in H. destruct H as (a' & Ha & H).
  destruct (matches (key a') right) as [|kv ms] eqn:E.
  - simpl in H. destruct H as [H|[]]. inversion H; subst.
    split; [exact Ha|]. discriminate.
  - rewrite <- E in H. apply in_map_iff in H.
    destruct H as ([k v'] & Heq & Hin). simpl in Heq.
    inversion Heq; subst a' o; clear Heq.
    split; [exact Ha|]. intros v Hv. inversion Hv; subst v'.
    unfold matches in Hin. apply filter_In in Hin. simpl in Hin.
    destruct Hin as [Hin Hk]. apply String.eqb_eq in Hk. now subst k.
Qed.

(** A left row whose label is not in the right index gets a null. *)
Lemma join_left_missing (left : list A) (a : A) (o : option V) :
  In (a, o) (join_left key left right) ->
  ~ In (key a) (map fst right) -> o = None.
Proof.
  intros H Hno. apply join_left_In in H. destruct H as [_ H].
  destruct o as [v|]; [|reflexivity].
  exfalso. apply Hno. apply in_map_iff. exists (key a, v).
  split; [reflexivity|]. now apply H.
Qed.

End JoinLeft.

(** ** Rows of the per-race table *)

Section RaceTable.

Variable session : Session.
Variable event : Event.
Variable year : Z.

(** Where a row of the per-race table comes from. *)
Lemma race_df_origin (row : RaceRow) :
  In row (race_df session event year) ->
  (exists res,
      In res (results session)
      /\ Driver row = res_Abbreviation res
      /\ TeamName row = res_TeamName res
      /\ Position row = res_Position res
      /\ Points row = res_Points res)
  /\ (forall v, TopSpeedST row = Some v ->
                In (Driver row, v) (get_top_speeds (laps session)))
  /\ (forall v, PositionsGained row = Some v ->
                In (Driver row, v) (get_start_performance session))
  /\ (forall v, AvgDegradation row = Some v ->
                exists c, In (Driver row, (v, c)) (get_stint_performance (laps session)))
  /\ (forall v, AvgConsistency row = Some v ->
                exists d, In (Driver row, (d, v)) (get_stint_performance (laps session)))
  /\ RaceName row = EventName event
  /\ RaceDate row = EventDate event
  /\ Season row = year.
Proof.
  unfold race_df. intros H.
  apply in_map_iff in H.
  destruct H as ([[[res speed] gained] stint] & Hrow & H3).
  apply join_left_In in H3. destruct H3 as [H2 Hstint].
  apply join_left_In in H2. destruct H2 as [H1 Hgained].
  apply join_left_In in H1. destruct H1 as [Hres Hspeed].
  simpl in *. subst row. simpl.
  split; [exists res; auto|].
  repeat split; auto.
  - intros v Hv. destruct stint as [[d c]|]; simpl in Hv; [|discriminate].
    inversion Hv; subst. exists c. now apply Hstint.
  - intros v Hv. destruct stint as [[d c]|]; simpl in Hv; [|discriminate].
    inversion Hv; subst. exists d. now apply Hstint.
Qed.

(** No row of the results is dropped. *)
Lemma race_df_keeps (res : Result) :
  In res (results session) ->
  exists row,
    In row (race_df session event year)
    /\ Driver row = res_Abbreviation res
    /\ TeamName row = res_TeamName res
    /\ Position row = res_Position res
    /\ Points row = res_Points res.
Proof.
  intros H.
  destruct (join_left_keeps res_Abbreviation (get_top_speeds (laps session))
                            _ _ H) as [speed H1].
  destruct (join_left_keeps (fun r => res_Abbreviation (fst r))
                            (get_start_performance session) _ _ H1)
    as [gained H2].
  destruct (join_left_keeps (fun r => res_Abbreviation (fst (fst r)))
                            (get_stint_performance (laps session)) _ _ H2)
    as [stint H3].
  eexists. split.
  - unfold race_df. apply in_map_iff.
    exists (((res, speed), gained), stint). split; [reflexivity|exact H3].
  - simpl. auto.
Qed.

(** A metric is null on the rows of a driver its extractor left out. *)
Lemma race_df_nulls (row : RaceRow) :
  In row (race_df session event year) ->
  (~ In (Driver row) (map fst (get_top_speeds (laps session))) ->
   TopSpeedST row = None)
  /\ (~ In (Driver row) (map fst (get_start_performance session)) ->
      PositionsGained row = None)
  /\ (~ In (Driver row) (map fst (get_stint_performance (laps session))) ->
      AvgDegradation row = None /\ AvgConsistency row = None).
Proof.
  intros H. apply race_df_origin in H.
  destruct H as (_ & Hs & Hg & Hd & Hc & _).
  split; [|split]; intros Hno; [| |split].
  - destruct (TopSpeedST row) as [v|]; [|reflexivity].
    exfalso. apply Hno. apply in_map_iff. exists (Driver row, v). auto.
  - destruct (PositionsGained row) as [v|]; [|reflexivity].
    exfalso. apply Hno. apply in_map_iff. exists (Driver row, v). auto.
  - destruct (AvgDegradation row) as [v|]; [|reflexivity].
    exfalso. apply Hno. destruct (Hd v eq_refl) as [c Hin].
    apply in_map_iff. exists (Driver row, (v, c)). auto.
  - destruct (AvgConsistency row) as [v|]; [|reflexivity].
    exfalso. apply Hno. destruct (Hc v eq_refl) as [d Hin].
    apply in_map_iff. exists (Driver row, (d, v)). auto.
Qed.

(** A driver without lap records is in no extractor's output. *)
Lemma race_df_no_laps (row : RaceRow) :
  In row (race_df session event year) ->
  ~ In (Driver row) (map lap_Driver (laps session)) ->
  TopSpeedST row = None /\ PositionsGained row = None
  /\ AvgDegradation row = None /\ AvgConsistency row = None.
Proof.
  intros H Hno. apply race_df_nulls in H. destruct H as (Hs & Hg & Hd).
  split; [|split].
  - apply Hs. now rewrite get_top_speeds_keys.
  - apply Hg. intros Hin. apply get_start_performance_keys in Hin.
    destruct Hin as [_ Hin]. now apply pick_laps_incl in Hin.
  - apply Hd. intros Hin. now apply get_stint_performance_keys in Hin.
Qed.

End RaceTable.

(** ** One row per classified driver *)

Lemma matches_nil {V : Type} (k : string) (right : Indexed V) :
  ~ In k (map fst right) -> matches k right = [].
Proof.
  induction right as [|[k' v] tl IH]; simpl; [reflexivity|].
  intros H. destruct (String.eqb k' k) eqn:E.
  - apply String.eqb_eq in E. tauto.
  - apply IH. tauto.
Qed.

(** A label of a duplicate-free index has at most one partner. *)
Lemma matches_NoDup {V : Type} (k : string) (right : Indexed V) :
  NoDup (map fst right) -> (List.length (matches k right) <= 1)%nat.
Proof.
  induction right as [|[k' v] tl IH]; simpl; intros H; [lia|].
  inversion H as [|? ? Hk Htl]; subst.
  destruct (String.eqb k' k) eqn:E.
  - apply String.eqb_eq in E. subst k'. simpl.
    fold (matches k tl). rewrite (matches_nil k tl Hk). simpl. lia.
  - now apply IH.
Qed.

Lemma join_left_one_each {A V : Type} (key : A -> string)
      (right : Indexed V) (left : list A) :
  NoDup (map fst right) -> map fst (join_left key left right) = left.
Proof.
  intros H. unfold join_left.
  induction left as [|a tl IH]; [reflexivity|].
  cbn [flat_map]. rewrite map_app, IH.
  pose proof (matches_NoDup (key a) right H) as Hlen.
  destruct (matches (key a) right) as [|kv [|kv' ms]]; simpl in *;
    [reflexivity|reflexivity|lia].
Qed.

Lemma keys_of_filter_NoDup {Row Key : Type} (key : Row -> Key)
      (keep : Row -> bool) (rows : list Row)
      (Hkeys : NoDup (map key rows)) :
  NoDup (map key (filter keep rows)).
Proof.
  induction rows as [|r rest IH]; simpl; [constructor|].
  inversion Hkeys as [|? ? Hr Hrest]; subst.
  destruct (keep r); simpl; [|now apply IH].
  constructor; [|now apply IH].
  intros Hin. apply Hr. apply in_map_iff in Hin.
  destruct Hin as (x & Hx & Hin). apply filter_In in Hin.
  apply in_map_iff. exists x. tauto.
Qed.

Lemma unique_str_NoDup (l : list string) : NoDup (Pd.unique_str l).
Proof.
  unfold Pd.unique_str.
  induction l as [|a tl IH]; simpl; constructor.
  - intros H. apply filter_In in H. destruct H as [_ H].
    rewrite String.eqb_refl in H. discriminate.
  - now apply NoDup_filter.
Qed.

Lemma insert_sorted_NoDup (s : string) (l : list string) :
  ~ In s l -> NoDup l -> NoDup (insert_sorted s l).
Proof.
  induction l as [|a tl IH]; simpl; intros Hs Hl.
  - constructor; [tauto|constructor].
  - inversion Hl as [|? ? Ha Htl]; subst.
    destruct (String.leb s a).
    + constructor; [simpl; tauto|exact Hl].
    + constructor.
      * rewrite insert_sorted_In. intros [H|H]; [subst; tauto|tauto].
      * apply IH; tauto.
Qed.

Lemma sort_keys_NoDup (l : list string) : NoDup l -> NoDup (sort_keys l).
Proof.
  unfold sort_keys.
  induction l as [|a tl IH]; simpl; intros H; [constructor|].
  inversion H as [|? ? Ha Htl]; subst.
  apply insert_sorted_NoDup; [|now apply IH].
  fold (sort_keys tl). now rewrite sort_keys_In.
Qed.

Lemma get_top_speeds_NoDup (ls : list Lap) :
  NoDup (map fst (get_top_speeds ls)).
Proof.
  unfold get_top_speeds. rewrite map_map. simpl. rewrite map_id.
  apply sort_keys_NoDup, unique_str_NoDup.
Qed.

Lemma flat_map_records_NoDup (ls : list Lap) (drivers : list string) :
  NoDup drivers -> NoDup (map fst (flat_map (driver_record ls) drivers)).
Proof.
  induction drivers as [|d tl IH]; simpl; intros H; [constructor|].
  inversion H as [|? ? Hd Htl]; subst.
  rewrite map_app. apply NoDup_app.
  - unfold driver_record. destruct (driver_degs _); simpl.
    + constructor.
    + constructor; [simpl; tauto|constructor].
  - now apply IH.
  - intros k Hk Hk'.
    apply in_map_iff in Hk. destruct Hk as ([k1 v] & Heq & Hin).
    simpl in Heq. subst k1. apply driver_record_key in Hin. subst k.
    apply in_map_iff in Hk'. destruct Hk' as ([k2 v2] & Heq & Hin2).
    simpl in Heq. subst k2.
    apply in_flat_map in Hin2. destruct Hin2 as (d' & Hd' & Hin2).
    apply driver_record_key in Hin2. subst d'. tauto.
Qed.

Lemma get_stint_performance_NoDup (ls : list Lap) :
  NoDup (map fst (get_stint_performance ls)).
Proof.
  unfold get_stint_performance.
  apply flat_map_records_NoDup, unique_str_NoDup.
Qed.

(** With one results row per driver and one lap-1 row per driver, the
    start frame has one row per driver. *)
Lemma get_start_performance_NoDup (session : Session) :
  NoDup (map res_Abbreviation (results session)) ->
  NoDup (map lap_Driver (pick_laps 1 (laps session))) ->
  NoDup (map fst (get_start_performance session)).
Proof.
  unfold get_start_performance, merge_grid_lap1.
  generalize (pick_laps 1 (laps session)) as lap1.
  generalize (results session) as grid.
  intros grid lap1 Hgrid Hlap. rewrite map_map. simpl.
  induction grid as [|g tl IH]; simpl; [constructor|].
  inversion Hgrid as [|? ? Hg Htl]; subst.
  rewrite filter_app, map_app. apply NoDup_app.
  - rewrite filter_map_swap, map_map. simpl.
    apply keys_of_filter_NoDup. now apply keys_of_filter_NoDup.
  - now apply IH.
  - intros k Hk Hk'.
    apply in_map_iff in Hk. destruct Hk as ([g1 l1] & Heq & Hin).
    simpl in Heq. subst k.
    apply filter_In in Hin. destruct Hin as [Hin _].
    apply in_map_iff in Hin. destruct Hin as (l & Hpair & Hl).
    inversion Hpair; subst g1 l1; clear Hpair.
    apply filter_In in Hl. destruct Hl as [_ Hkey].
    apply String.eqb_eq in Hkey.
    apply in_map_iff in Hk'. destruct Hk' as ([g2 l2] & Heq & Hin).
    simpl in Heq.
    apply filter_In in Hin. destruct Hin as [Hin _].
    apply in_flat_map in Hin. destruct Hin as (g' & Hg' & Hin).
    apply in_map_iff in Hin. destruct Hin as (l' & Hpair & Hl').
    inversion Hpair; subst g2 l2; clear Hpair.
    apply filter_In in Hl'. destruct Hl' as [_ Hkey'].
    apply String.eqb_eq in Hkey'.
    apply Hg. apply in_map_iff. exists g'. split; [congruence|exact Hg'].
Qed.

(** The per-race table then lists the drivers of the results, in their
    order, once each. *)
Lemma race_df_one_row_each (session : Session) (event : Event) (year : Z) :
  NoDup (map res_Abbreviation (results session)) ->
  NoDup (map lap_Driver (pick_laps 1 (laps session))) ->
  map Driver (race_df session event year)
  = map res_Abbreviation (results session).
Proof.
  intros Hres Hlap. unfold race_df. rewrite map_map.
  rewrite (map_ext _ (fun r => res_Abbreviation (fst (fst (fst r))))).
  2:{ intros [[[res speed] gained] stint]. reflexivity. }
  rewrite <- (map_map fst (fun r => res_Abbreviation (fst (fst r)))).
  rewrite join_left_one_each by apply get_stint_performance_NoDup.
  rewrite <- (map_map fst (fun r => res_Abbreviation (fst r))).
  rewrite join_left_one_each
    by (apply get_start_performance_NoDup; assumption).
  rewrite <- (map_map fst res_Abbreviation).
  rewrite join_left_one_each by apply get_top_speeds_NoDup.
  reflexivity.
Qed.

(** ** Positions gained at the start *)

(** C6: the start frame has a row for a driver exactly when a results
    row and a lap-1 row carry that driver and the grid position is
    positive, and the row holds the grid position minus the lap-1
    position; a driver whose grid position is zero or negative has no
    row.  Third on the grid and fifth after lap 1 gives -2; tenth on the
    grid and first after lap 1 gives +9. *)
Theorem C6_positions_gained (session : Session) (d : string) :
  (forall pg,
      In (d, pg) (get_start_performance session) <->
      exists g l,
        In g (results session) /\ In l (laps session)
        /\ (lap_LapNumber l =? 1) = true
        /\ res_Abbreviation g = d /\ lap_Driver l = d
        /\ (0 <? res_GridPosition g) = true
        /\ pg = res_GridPosition g - lap_Position l)
  /\ ((forall g, In g (results session) -> res_Abbreviation g = d ->
                 (res_GridPosition g <=? 0) = true) ->
      ~ In d (map fst (get_start_performance session)))
  /\ get_start_performance Sample.start = [("HAM", -2); ("VER", 9)]
  /\ (3 - 5 = -2 /\ 10 - 1 = 9).
Proof.
  split; [intros pg; apply get_start_performance_In|].
  split.
  - intros Hgrid Hin. apply in_map_iff in Hin.
    destruct Hin as ([d' pg] & Heq & Hin). simpl in Heq. subst d'.
    apply get_start_performance_In in Hin.
    destruct Hin as (g & l & Hg & _ & _ & Ha & _ & Hpos & _).
    apply (Hgrid g Hg) in Ha. apply leb_not_ltb in Ha. congruence.
  - repeat split; vm_compute; reflexivity.
Qed.

(** HAM and VER have their rows; BOT, with grid position 0, has none. *)
Lemma C6_positions_gained_witness :
  In ("HAM", -2) (get_start_performance Sample.start)
  /\ In ("VER", 9) (get_start_performance Sample.start)
  /\ ~ In "BOT" (map fst (get_start_performance Sample.start)).
Proof.
  destruct (C6_positions_gained Sample.start "HAM") as (Hham & _).
  destruct (C6_positions_gained Sample.start "VER") as (Hver & _).
  destruct (C6_positions_gained Sample.start "BOT") as (_ & Hbot & _).
  split; [|split].
  - apply Hham.
    exists (mkResult "HAM" "Mercedes" 3 2 18), (Sample.running "HAM" 1 5).
    simpl. repeat split; auto.
  - apply Hver.
    exists (mkResult "VER" "Red Bull Racing" 10 1 25), (Sample.running "VER" 1 1).
    simpl. repeat split; auto.
  - apply Hbot. intros g Hg Hd. simpl in Hg.
    destruct Hg as [<-|[<-|[<-|[<-|[]]]]]; simpl in Hd;
      try discriminate; reflexivity.
Defined.

(** ** The start join is an inner join *)

(** C10: a driver is in the start frame only if both the results and the
    lap-1 laps list the driver; a driver missing on either side is absent
    from the frame, and the frame is returned all the same.  If such a
    driver is in the results, the per-race table still has the driver's
    row, with a null for PositionsGained. *)
Theorem C10_start_join_is_inner (session : Session) (d : string) :
  (In d (map fst (get_start_performance session)) ->
   In d (map res_Abbreviation (results session))
   /\ In d (map lap_Driver (pick_laps 1 (laps session))))
  /\ (~ In d (map res_Abbreviation (results session))
      \/ ~ In d (map lap_Driver (pick_laps 1 (laps session))) ->
      ~ In d (map fst (get_start_performance session)))
  /\ (forall event year,
         In d (map res_Abbreviation (results session)) ->
         ~ In d (map lap_Driver (pick_laps 1 (laps session))) ->
         (exists row, In row (race_df session event year) /\ Driver row = d)
         /\ (forall row,
                In row (race_df session event year) -> Driver row = d ->
                PositionsGained row = None)).
Proof.
  split; [apply get_start_performance_keys|].
  split.
  - intros H Hin. apply get_start_performance_keys in Hin. tauto.
  - intros event year Hres Hlap. split.
    + apply in_map_iff in Hres. destruct Hres as (res & Hd & Hres).
      destruct (race_df_keeps session event year res Hres)
        as (row & Hin & Hrow & _).
      exists row. split; [exact Hin|congruence].
    + intros row Hin Hd.
      apply (race_df_nulls session event year row Hin).
      rewrite Hd. intros Hk. apply get_start_performance_keys in Hk. tauto.
Qed.

(** ALB, without a lap-1 row, is absent from the start frame and null in
    the per-race table. *)
Lemma C10_start_join_witness :
  ~ In "ALB" (map fst (get_start_performance Sample.start))
  /\ (exists row,
         In row (race_df Sample.start Sample.race 2024) /\ Driver row = "ALB")
  /\ (forall row,
         In row (race_df Sample.start Sample.race 2024) -> Driver row = "ALB" ->
         PositionsGained row = None).
Proof.
  destruct (C10_start_join_is_inner Sample.start "ALB") as (_ & Habs & Hnull).
  assert (Hlap : ~ In "ALB" (map lap_Driver (pick_laps 1 (laps Sample.start)))).
  { vm_compute. intuition discriminate. }
  split; [apply Habs; now right|].
  apply (Hnull Sample.race 2024%Z); [|exact Hlap].
  simpl. tauto.
Defined.

(** ** The season loop *)

Lemma fold_event_step (api : Fastf1) (year : Z) (events : list Event)
      (all_race_data : list (list RaceRow)) :
  fold_left (event_step api year) events all_race_data
  = fold_left (try_race api year) (filter is_race events) all_race_data.
Proof.
  revert all_race_data.
  induction events as [|e tl IH]; intros all_race_data; [reflexivity|].
  simpl. unfold event_step at 2, is_race.
  destruct (String.eqb (EventFormat e) "testing"); simpl; apply IH.
Qed.

(** A run of races that all raise adds nothing. *)
Lemma fold_try_race_failing (api : Fastf1) (year : Z) (events : list Event)
      (all_race_data : list (list RaceRow)) :
  (forall e, In e events -> get_session api year (EventName e) = None) ->
  fold_left (try_race api year) events all_race_data = all_race_data.
Proof.
  revert all_race_data.
  induction events as [|e tl IH]; intros all_race_data H; [reflexivity|].
  simpl. unfold try_race at 2. rewrite (H e (or_introl eq_refl)).
  apply IH. intros e' He'. apply H. now right.
Qed.

(** C7: the event loop of a season passes to the per-race [try] block
    exactly the schedule entries after the first whose format is not
    'testing', in schedule order; the first entry is left out whatever
    its format. *)
Theorem C7_events_of_a_season
        (api : Fastf1) (year : Z) (schedule : list Event)
        (all_race_data : list (list RaceRow)) :
  let races := filter is_race (skipn 1 schedule) in
  event_loop api year schedule all_race_data
  = fold_left (try_race api year) races all_race_data
  /\ (forall e,
         In e races <->
         (exists i, nth_error schedule (S i) = Some e)
         /\ EventFormat e <> "testing")
  /\ (forall first rest, schedule = first :: rest -> races = filter is_race rest).
Proof.
  intros races. split; [|split].
  - apply fold_event_step.
  - intros e. unfold races. rewrite filter_In. unfold is_race.
    rewrite negb_true_iff, String.eqb_neq.
    destruct schedule as [|first rest]; simpl.
    + split; [tauto|]. intros [[i Hi] _]. discriminate.
    + split; intros [H Hf]; (split; [|exact Hf]).
      * apply In_nth_error in H. exact H.
      * destruct H as [i Hi]. now apply nth_error_In in Hi.
  - intros first rest ->. reflexivity.
Qed.

(** On a schedule that opens with the testing placeholder both races are
    tried; on one that opens with a race, that race is left out as well. *)
Lemma C7_events_witness :
  (forall api year all_race_data,
      event_loop api year [Sample.testing; Sample.race; Sample.sprint] all_race_data
      = fold_left (try_race api year) [Sample.race; Sample.sprint] all_race_data)
  /\ (forall api year all_race_data,
         event_loop api year [Sample.race; Sample.testing; Sample.sprint] all_race_data
         = fold_left (try_race api year) [Sample.sprint] all_race_data).
Proof.
  split; intros api year all_race_data.
  - exact (proj1 (C7_events_of_a_season
                    api year [Sample.testing; Sample.race; Sample.sprint]
                    all_race_data)).
  - exact (proj1 (C7_events_of_a_season
                    api year [Sample.race; Sample.testing; Sample.sprint]
                    all_race_data)).
Defined.

(** ** A run in which every race fails *)

Lemma year_loop_failing (api : Fastf1) (years : list Z)
      (all_race_data : list (list RaceRow)) :
  (forall year, In year years -> get_event_schedule api year <> None) ->
  (forall year schedule e,
      In year years ->
      get_event_schedule api year = Some schedule ->
      In e (filter is_race (skipn 1 schedule)) ->
      get_session api year (EventName e) = None) ->
  year_loop api years all_race_data = inr all_race_data.
Proof.
  induction years as [|year tl IH]; intros Hsched Hfail; [reflexivity|].
  simpl. destruct (get_event_schedule api year) as [schedule|] eqn:E.
  - unfold event_loop. rewrite fold_event_step.
    rewrite fold_try_race_failing.
    + apply IH.
      * intros y Hy. apply Hsched. now right.
      * intros y s e Hy. apply Hfail. now right.
    + intros e He. apply (Hfail year schedule e); auto. now left.
  - exfalso. apply (Hsched year); [now left|exact E].
Qed.

(** C9: when every schedule is fetched and every race of every
    configured season raises inside its [try] block, [all_race_data] is
    empty at the end of the loops, [pd.concat] raises on it, and [main]
    ends in that exception without writing: the output file is as it was
    before the run. *)
Theorem C9_no_file_when_every_race_fails (api : Fastf1) (file : File) :
  (forall year, In year YEARS_TO_ANALYZE -> get_event_schedule api year <> None) ->
  (forall year schedule e,
      In year YEARS_TO_ANALYZE ->
      get_event_schedule api year = Some schedule ->
      In e (filter is_race (skipn 1 schedule)) ->
      get_session api year (EventName e) = None) ->
  year_loop api YEARS_TO_ANALYZE [] = inr []
  /\ pd_concat [] = inl NoObjectsToConcatenate
  /\ main api file = (Some NoObjectsToConcatenate, file).
Proof.
  intros Hsched Hfail.
  pose proof (year_loop_failing api YEARS_TO_ANALYZE [] Hsched Hfail) as Hloop.
  split; [exact Hloop|]. split; [reflexivity|].
  unfold main. rewrite Hloop. reflexivity.
Qed.

(** A provider without any session leaves an earlier file in place. *)
Lemma C9_no_file_witness :
  year_loop Sample.no_sessions YEARS_TO_ANALYZE [] = inr []
  /\ pd_concat [] = inl NoObjectsToConcatenate
  /\ main Sample.no_sessions Sample.previous
     = (Some NoObjectsToConcatenate, Sample.previous).
Proof.
  apply (C9_no_file_when_every_race_fails Sample.no_sessions Sample.previous).
  - intros year _. simpl. discriminate.
  - intros year schedule e _ _ _. reflexivity.
Defined.

(** ** The order of float64 values that are not NaN *)

Section FloatTotalOrder.

Lemma SFleb_trans (a b c : spec_float) :
  SFleb a b = true -> SFleb b c = true -> SFleb a c = true.
Proof.
  unfold SFleb.
  destruct a as [sa|sa| |sa ma ea], b as [sb|sb| |sb mb eb],
           c as [sc|sc| |sc mc ec]; simpl;
    try discriminate; try reflexivity;
    try (destruct sa; simpl; try discriminate; try reflexivity);
    try (destruct sb; simpl; try discriminate; try reflexivity);
    try (destruct sc; simpl; try discriminate; try reflexivity);
    rewrite ?Pos.compare_cont_spec; simpl;
    repeat match goal with
           | |- context [Z.compare ?x ?y] => destruct (Z.compare_spec x y)
           end; simpl;
    repeat match goal with
           | |- context [Pos.compare ?x ?y] => destruct (Pos.compare_spec x y)
           end; simpl; try discriminate; try reflexivity; intros; lia.
Qed.

Lemma leb_trans (x y z : float) :
  (x <=? y) = true -> (y <=? z) = true -> (x <=? z) = true.
Proof.
  rewrite !leb_spec. apply SFleb_trans.
Qed.

Lemma ltb_leb (x y : float) : (x <? y) = true -> (x <=? y) = true.
Proof.
  rewrite ltb_spec, leb_spec. unfold SFltb, SFleb.
  destruct (SFcompare (Prim2SF x) (Prim2SF y)) as [[ | | ]|]; congruence.
Qed.

(** A value that is not NaN compares with every other such value. *)
Lemma notnan_compare (x y : float) :
  F64.notnan x = true -> F64.notnan y = true ->
  SFcompare (Prim2SF x) (Prim2SF y) <> None.
Proof.
  unfold F64.notnan, PrimFloat.is_nan.
  rewrite !negb_involutive, !FloatAxioms.eqb_spec. unfold SFeqb.
  destruct (Prim2SF x) as [sx|sx| |sx mx ex], (Prim2SF y) as [sy|sy| |sy my ey];
    simpl; intros Hx Hy; discriminate.
Qed.

Lemma leb_refl (x : float) : F64.notnan x = true -> (x <=? x) = true.
Proof.
  unfold F64.notnan, PrimFloat.is_nan.
  rewrite negb_involutive, FloatAxioms.eqb_spec, leb_spec.
  unfold SFeqb, SFleb.
  destruct (SFcompare (Prim2SF x) (Prim2SF x)) as [[ | | ]|]; congruence.
Qed.

Lemma not_ltb_leb (x y : float) :
  F64.notnan x = true -> F64.notnan y = true ->
  (x <? y) = false -> (y <=? x) = true.
Proof.
  intros Hx Hy. pose proof (notnan_compare x y Hx Hy) as Hc.
  rewrite ltb_spec, leb_spec. unfold SFltb, SFleb.
  rewrite (SFcompare_antisym (Prim2SF x) (Prim2SF y)).
  destruct (SFcompare (Prim2SF x) (Prim2SF y)) as [[ | | ]|]; simpl; congruence.
Qed.

End FloatTotalOrder.

(** ** The largest value of a column *)

(** [np.amax] on values none of which is NaN: the result is one of them
    and none of them is above it. *)
Lemma amax_fold (tl : list float) (m : float) :
  F64.notnan m = true ->
  Forall (fun v => F64.notnan v = true) tl ->
  let r := Np.amax (m :: tl) in
  (r = m \/ In r tl) /\ F64.notnan r = true
  /\ (m <=? r) = true
  /\ (forall x, In x tl -> (x <=? r) = true).
Proof.
  unfold Np.amax, Np.pick. revert m.
  induction tl as [|v tl IH]; intros m Hm Hall; simpl.
  - repeat split; auto using leb_refl.
  - inversion Hall as [|? ? Hv Htl]; subst.
    assert (Em : PrimFloat.is_nan m = false)
      by (unfold F64.notnan in Hm; now apply negb_true_iff in Hm).
    assert (Ev : PrimFloat.is_nan v = false)
      by (unfold F64.notnan in Hv; now apply negb_true_iff in Hv).
    rewrite Em, Ev.
    destruct (m <? v) eqn:E.
    + destruct (IH v Hv Htl) as (Hin & Hr & Hle & Hup).
      repeat split; auto.
      * destruct Hin as [Hin|Hin]; right; [left; now symmetry|now right].
      * apply leb_trans with v; [now apply ltb_leb|exact Hle].
      * intros x [<-|Hx]; auto.
    + destruct (IH m Hm Htl) as (Hin & Hr & Hle & Hup).
      repeat split; auto.
      * destruct Hin as [Hin|Hin]; [now left|right; now right].
      * intros x [<-|Hx]; auto.
        apply leb_trans with m; [now apply not_ltb_leb|exact Hle].
Qed.

Lemma dropna_notnan (l : list float) :
  Forall (fun v => F64.notnan v = true) (Pd.dropna l).
Proof.
  apply Forall_forall. intros v Hv. unfold Pd.dropna in Hv.
  apply filter_In in Hv. tauto.
Qed.

(** [Series.max()]: NaN when no value is present, and otherwise a value
    of the column that no value of the column exceeds. *)
Lemma pd_max_spec (l : list float) :
  (Pd.dropna l = [] -> Pd.max l = nan)
  /\ (Pd.dropna l <> [] ->
      In (Pd.max l) l /\ F64.notnan (Pd.max l) = true
      /\ forall x, In x l -> F64.notnan x = true -> (x <=? Pd.max l) = true).
Proof.
  unfold Pd.max. pose proof (dropna_notnan l) as Hall.
  assert (Hsub : forall x, In x (Pd.dropna l) <-> In x l /\ F64.notnan x = true)
    by (intros x; unfold Pd.dropna; apply filter_In).
  destruct (Pd.dropna l) as [|m tl] eqn:E.
  - split; [reflexivity|congruence].
  - split; [discriminate|]. intros _.
    inversion Hall as [|? ? Hm Htl]; subst.
    destruct (amax_fold tl m Hm Htl) as (Hin & Hr & Hle & Hup).
    split; [|split; [exact Hr|]].
    + apply (proj1 (Hsub _)). destruct Hin as [->|Hin]; [now left|now right].
    + intros x Hx Hnn.
      destruct (proj2 (Hsub x) (conj Hx Hnn)) as [<-|Hx']; auto.
Qed.

(** ** get_top_speeds: index and values *)

Lemma insert_sorted_Sorted (s : string) (l : list string) :
  Sorted (fun a b => String.leb a b = true) l ->
  Sorted (fun a b => String.leb a b = true) (insert_sorted s l).
Proof.
  induction l as [|a tl IH]; simpl; intros H.
  - repeat constructor.
  - destruct (String.leb s a) eqn:E.
    + constructor; [exact H|]. constructor. exact E.
    + inversion H as [|? ? Htl Hhd]; subst.
      constructor; [now apply IH|].
      assert (Ha : String.leb a s = true).
      { destruct (String.leb_total s a) as [H1|H1]; congruence. }
      destruct tl as [|b tl']; simpl.
      * constructor. exact Ha.
      * destruct (String.leb s b); constructor; [exact Ha|].
        inversion Hhd; subst. assumption.
Qed.

Lemma sort_keys_Sorted (l : list string) :
  Sorted (fun a b => String.leb a b = true) (sort_keys l).
Proof.
  unfold sort_keys. induction l as [|a tl IH]; simpl.
  - constructor.
  - now apply insert_sorted_Sorted.
Qed.

(** X1: the frame of top speeds lists every driver that has a lap, once,
    and no one else, in ascending order of the driver labels. *)
Theorem top_speeds_index (ls : list Lap) :
  NoDup (map fst (get_top_speeds ls))
  /\ (forall d, In d (map fst (get_top_speeds ls)) <-> In d (map lap_Driver ls))
  /\ Sorted (fun a b => String.leb a b = true) (map fst (get_top_speeds ls)).
Proof.
  split; [apply get_top_speeds_NoDup|].
  split; [intros d; apply get_top_speeds_keys|].
  unfold get_top_speeds. rewrite map_map. simpl. rewrite map_id.
  apply sort_keys_Sorted.
Qed.

(** X2: a driver's top speed is a speed recorded on one of the driver's
    laps, and no recorded speed of the driver is above it; it is NaN
    when none of the driver's laps has a speed. *)
Theorem top_speed_is_max (ls : list Lap) (d : string) (v : float) :
  In (d, v) (get_top_speeds ls) ->
  (forall l, In l ls -> lap_Driver l = d ->
             F64.notnan (lap_SpeedST l) = true -> (lap_SpeedST l <=? v) = true)
  /\ ((exists l, In l ls /\ lap_Driver l = d /\ F64.notnan (lap_SpeedST l) = true) ->
      F64.notnan v = true
      /\ exists l, In l ls /\ lap_Driver l = d /\ lap_SpeedST l = v)
  /\ ((forall l, In l ls -> lap_Driver l = d ->
                 F64.notnan (lap_SpeedST l) = false) -> v = nan).
Proof.
  unfold get_top_speeds. intros H. apply in_map_iff in H.
  destruct H as (d' & Heq & _). inversion Heq; subst d' v; clear Heq.
  set (speeds := map lap_SpeedST (pick_drivers d ls)).
  assert (Hspeeds : forall x, In x speeds <->
                              exists l, In l ls /\ lap_Driver l = d /\ lap_SpeedST l = x).
  { intros x. unfold speeds, pick_drivers. rewrite in_map_iff. split.
    - intros (l & Hx & Hl). apply filter_In in Hl. destruct Hl as [Hl Hd].
      apply String.eqb_eq in Hd. exists l. auto.
    - intros (l & Hl & Hd & Hx). exists l. split; [exact Hx|].
      apply filter_In. split; [exact Hl|]. now apply String.eqb_eq. }
  destruct (pd_max_spec speeds) as [Hnone Hsome].
  assert (Hdrop : forall x, In x (Pd.dropna speeds) <->
                            In x speeds /\ F64.notnan x = true)
    by (intros x; unfold Pd.dropna; apply filter_In).
  split; [|split].
  - intros l Hl Hd Hnn.
    assert (Hx : In (lap_SpeedST l) (Pd.dropna speeds)).
    { apply Hdrop. split; [|exact Hnn]. apply Hspeeds. exists l. auto. }
    apply Hsome.
    + intros E. rewrite E in Hx. exact Hx.
    + apply Hdrop in Hx. tauto.
    + exact Hnn.
  - intros (l & Hl & Hd & Hnn).
    assert (Hx : In (lap_SpeedST l) (Pd.dropna speeds)).
    { apply Hdrop. split; [|exact Hnn]. apply Hspeeds. exists l. auto. }
    destruct Hsome as (Hin & Hr & _).
    { intros E. rewrite E in Hx. exact Hx. }
    split; [exact Hr|]. now apply Hspeeds.
  - intros Hall. apply Hnone.
    destruct (Pd.dropna speeds) as [|x tl] eqn:E; [reflexivity|].
    assert (Hx : In x (x :: tl)) by now left.
    apply Hdrop in Hx. destruct Hx as [Hx Hnn].
    apply Hspeeds in Hx. destruct Hx as (l & Hl & Hd & Hv).
    specialize (Hall l Hl Hd). congruence.
Qed.

(** HAM's fastest of three trap speeds. *)
Lemma top_speed_is_max_witness :
  In ("HAM", 331.5) (get_top_speeds Scenario.speeds)
  /\ (forall l, In l Scenario.speeds -> lap_Driver l = "HAM" ->
                F64.notnan (lap_SpeedST l) = true ->
                (lap_SpeedST l <=? 331.5) = true).
Proof.
  assert (H : In ("HAM", 331.5) (get_top_speeds Scenario.speeds)).
  { vm_compute. left. reflexivity. }
  split; [exact H|].
  exact (proj1 (top_speed_is_max Scenario.speeds "HAM" 331.5 H)).
Defined.

(** ** get_stint_performance: what the two lists hold *)

(** When the body runs through for a stint. *)
Lemma ran_through_iff (driver_laps : list Lap) (stint : float) :
  ran_through driver_laps stint = true <->
  let final := final_laps (clean_laps (laps_stint driver_laps stint)) in
  (3 <= List.length (clean_laps (laps_stint driver_laps stint)))%nat
  /\ (3 <= List.length final)%nat
  /\ Scipy.linregress_slope (StintLap final) (map LapTimeSeconds final) <> None.
Proof.
  unfold ran_through, completion_of. cbv zeta.
  destruct (List.length (clean_laps (laps_stint driver_laps stint)) <? 3)%nat eqn:E1.
  - rewrite stint_body_short by (left; now apply Nat.ltb_lt).
    apply Nat.ltb_lt in E1. simpl. split; [discriminate|lia].
  - destruct (List.length (final_laps (clean_laps (laps_stint driver_laps stint)))
              <? 3)%nat eqn:E2.
    + rewrite stint_body_short by (right; now apply Nat.ltb_lt).
      apply Nat.ltb_lt in E2. simpl. split; [discriminate|lia].
    + rewrite (stint_body_long _ _ _ E1 E2). cbv zeta.
      apply Nat.ltb_ge in E1. apply Nat.ltb_ge in E2.
      destruct (Scipy.linregress_slope _ _); simpl.
      * split; [intros _|reflexivity]. repeat split; auto. discriminate.
      * split; [discriminate|]. intros (_ & _ & H). congruence.
Qed.

(** The body appends to the lists it is given, how much depending only
    on how it ends. *)
Lemma stint_body_appends (driver_laps : list Lap) (stint : float) (s : Lists) :
  exists degs cons,
    stint_body driver_laps stint s
    = (completion_of driver_laps stint,
       mkLists (driver_degs s ++ degs) (driver_cons s ++ cons))
    /\ List.length degs = (if ran_through driver_laps stint then 1 else 0)%nat
    /\ List.length cons
       = (if ran_through driver_laps stint || raised driver_laps stint
          then 1 else 0)%nat.
Proof.
  unfold ran_through, raised, completion_of.
  destruct (List.length (clean_laps (laps_stint driver_laps stint)) <? 3)%nat eqn:E1.
  - rewrite !stint_body_short by (left; now apply Nat.ltb_lt).
    exists [], []. simpl. rewrite !app_nil_r. destruct s; auto.
  - destruct (List.length (final_laps (clean_laps (laps_stint driver_laps stint)))
              <? 3)%nat eqn:E2.
    + rewrite !stint_body_short by (right; now apply Nat.ltb_lt).
      exists [], []. simpl. rewrite !app_nil_r. destruct s; auto.
    + rewrite !(stint_body_long _ _ _ E1 E2). cbv zeta.
      destruct (Scipy.linregress_slope _ _) as [d|]; simpl.
      * eexists [d], [_]. auto.
      * eexists [], [_]. rewrite app_nil_r. auto.
Qed.

Lemma stint_fold_counts (driver_laps : list Lap) (stints : list float) (s : Lists) :
  let s' := fold_left (try_stint driver_laps) stints s in
  List.length (driver_degs s')
  = (List.length (driver_degs s)
     + List.length (filter (ran_through driver_laps) stints))%nat
  /\ List.length (driver_cons s')
     = (List.length (driver_cons s)
        + List.length (filter (ran_through driver_laps) stints)
        + List.length (filter (raised driver_laps) stints))%nat.
Proof.
  revert s. induction stints as [|st tl IH]; intros s; simpl; [lia|].
  destruct (IH (try_stint driver_laps s st)) as [Hd Hc].
  rewrite Hd, Hc. clear IH Hd Hc.
  unfold try_stint.
  destruct (stint_body_appends driver_laps st s) as (degs & cons & -> & Hd & Hc).
  simpl. rewrite !length_app, Hd, Hc.
  assert (Hex : ran_through driver_laps st = true -> raised driver_laps st = false).
  { unfold ran_through, raised. destruct (completion_of driver_laps st); congruence. }
  destruct (ran_through driver_laps st) eqn:Er.
  - rewrite (Hex eq_refl). simpl. lia.
  - destruct (raised driver_laps st); simpl; lia.
Qed.

(** X3: at the end of a driver's stint loop [driver_degs] holds one
    slope per stint whose body ran through, and [driver_cons] one value
    per such stint and one more per stint whose regression raised; so
    AvgConsistency never averages fewer stints than AvgDegradation. *)
Theorem stint_loop_counts (driver_laps : list Lap) (stints : list float) :
  let s := stint_loop driver_laps stints in
  List.length (driver_degs s)
  = List.length (filter (ran_through driver_laps) stints)
  /\ List.length (driver_cons s)
     = (List.length (filter (ran_through driver_laps) stints)
        + List.length (filter (raised driver_laps) stints))%nat
  /\ (List.length (driver_degs s) <= List.length (driver_cons s))%nat.
Proof.
  intros s. unfold s, stint_loop.
  destruct (stint_fold_counts driver_laps stints (mkLists [] [])) as [Hd Hc].
  simpl in Hd, Hc. rewrite Hd, Hc. lia.
Qed.

(** X4: a driver has a row in the stint frame exactly when one of the
    driver's stints has at least three clean laps, at least three laps
    after the outlier filter, and a regression that does not raise; and
    no driver has two rows. *)
Theorem stint_frame_rows (ls : list Lap) :
  NoDup (map fst (get_stint_performance ls))
  /\ forall d,
      In d (map fst (get_stint_performance ls)) <->
      In d (map lap_Driver ls)
      /\ exists stint,
          In stint (Pd.unique_f64 (map lap_Stint (pick_drivers d ls)))
          /\ let final :=
               final_laps (clean_laps (laps_stint (pick_drivers d ls) stint)) in
             (3 <= List.length (clean_laps (laps_stint (pick_drivers d ls) stint)))%nat
             /\ (3 <= List.length final)%nat
             /\ Scipy.linregress_slope (StintLap final) (map LapTimeSeconds final)
                <> None.
Proof.
  split; [apply get_stint_performance_NoDup|].
  intros d.
  assert (Hrec : driver_record ls d <> [] <->
                 exists stint,
                   In stint (Pd.unique_f64 (map lap_Stint (pick_drivers d ls)))
                   /\ ran_through (pick_drivers d ls) stint = true).
  { unfold driver_record.
    pose proof (stint_fold_counts (pick_drivers d ls)
                  (Pd.unique_f64 (map lap_Stint (pick_drivers d ls)))
                  (mkLists [] [])) as (Hd & _).
    cbv zeta in Hd. fold (stint_loop (pick_drivers d ls)
                            (Pd.unique_f64 (map lap_Stint (pick_drivers d ls)))) in Hd.
    destruct (driver_degs _) as [|x tl]; simpl in Hd.
    - split; [congruence|]. intros (st & Hin & Hr).
      assert (Hf : In st (filter (ran_through (pick_drivers d ls))
                                 (Pd.unique_f64 (map lap_Stint (pick_drivers d ls)))))
        by (apply filter_In; auto).
      destruct (filter _ _); [destruct Hf|discriminate].
    - split; [intros _|discriminate].
      destruct (filter _ _) as [|st rest] eqn:E; [discriminate|].
      assert (Hf : In st (st :: rest)) by now left.
      rewrite <- E in Hf. apply filter_In in Hf. exists st. exact Hf. }
  split.
  - intros Hin. split; [now apply get_stint_performance_keys|].
    apply in_map_iff in Hin. destruct Hin as ([d' v] & Heq & Hin).
    simpl in Heq. subst d'. unfold get_stint_performance in Hin.
    apply in_flat_map in Hin. destruct Hin as (driver & _ & Hin).
    pose proof (driver_record_key _ _ _ _ Hin) as <-.
    assert (Hne : driver_record ls d <> [])
      by (intros E; rewrite E in Hin; destruct Hin).
    apply Hrec in Hne. destruct Hne as (st & Hst & Hr).
    exists st. split; [exact Hst|]. now apply ran_through_iff.
  - intros (Hd & st & Hst & Hfit).
    assert (Hne : driver_record ls d <> []).
    { apply Hrec. exists st. split; [exact Hst|]. now apply ran_through_iff. }
    destruct (driver_record ls d) as [|[k v] rest] eqn:E; [congruence|].
    assert (Hk : In (k, v) (driver_record ls d)) by (rewrite E; now left).
    pose proof (driver_record_key _ _ _ _ Hk) as ->.
    apply in_map_iff. exists (d, v). split; [reflexivity|].
    unfold get_stint_performance. apply in_flat_map. exists d.
    split; [now apply unique_str_complete|exact Hk].
Qed.

(** ** get_start_performance: how many rows *)

(** X5: when no driver has two lap-1 rows, the start frame has at most
    one row per row of the results, and its driver labels are those of
    the results rows it keeps, in the order of the results; if no driver
    has two results rows either, no label occurs twice. *)
Theorem start_frame_rows (session : Session) :
  NoDup (map lap_Driver (pick_laps 1 (laps session))) ->
  (List.length (get_start_performance session)
   <= List.length (results session))%nat
  /\ map fst (get_start_performance session)
     = map res_Abbreviation
           (filter (fun g =>
                      (0 <? res_GridPosition g)
                      && existsb (fun l => String.eqb (res_Abbreviation g)
                                                      (lap_Driver l))
                                 (pick_laps 1 (laps session)))
                   (results session))
  /\ (NoDup (map res_Abbreviation (results session)) ->
      NoDup (map fst (get_start_performance session))).
Proof.
  intros Hlap.
  assert (Hone : forall g,
             let ms := filter (fun l => String.eqb (res_Abbreviation g) (lap_Driver l))
                              (pick_laps 1 (laps session)) in
             (ms = [] /\ existsb (fun l => String.eqb (res_Abbreviation g) (lap_Driver l))
                                 (pick_laps 1 (laps session)) = false)
             \/ (exists l, ms = [l] /\ lap_Driver l = res_Abbreviation g
                           /\ existsb (fun l => String.eqb (res_Abbreviation g)
                                                           (lap_Driver l))
                                      (pick_laps 1 (laps session)) = true)).
  { intros g. cbv zeta. revert Hlap.
    generalize (pick_laps 1 (laps session)) as lap1.
    induction lap1 as [|l tl IH]; simpl; intros Hnd; [now left|].
    inversion Hnd as [|? ? Hl Htl]; subst.
    destruct (String.eqb (res_Abbreviation g) (lap_Driver l)) eqn:E; simpl.
    - right. exists l. apply String.eqb_eq in E.
      destruct (IH Htl) as [[Hnil _]|(l' & Hl' & Hd & _)].
      + rewrite Hnil. auto.
      + exfalso. apply Hl. rewrite <- E, <- Hd.
        apply in_map.
        assert (Hin : In l' [l']) by now left.
        rewrite <- Hl' in Hin. apply filter_In in Hin. tauto.
    - apply IH. exact Htl. }
  assert (Hshape :
            map fst (get_start_performance session)
            = map res_Abbreviation
                  (filter (fun g =>
                             (0 <? res_GridPosition g)
                             && existsb (fun l => String.eqb (res_Abbreviation g)
                                                             (lap_Driver l))
                                        (pick_laps 1 (laps session)))
                          (results session))).
  { unfold get_start_performance, merge_grid_lap1. rewrite map_map. simpl.
    induction (results session) as [|g tl IH]; simpl; [reflexivity|].
    rewrite filter_app, map_app, IH. f_equal.
    destruct (Hone g) as [[Hnil He]|(l & Hl & Hd & He)]; cbv zeta in *.
    - rewrite Hnil, He, andb_false_r. reflexivity.
    - rewrite Hl, He, andb_true_r. simpl.
      destruct (0 <? res_GridPosition g); simpl; [now rewrite Hd|reflexivity]. }
  split; [|split].
  - rewrite <- (length_map fst), Hshape, length_map. apply filter_length_le.
  - exact Hshape.
  - intros Hres. now apply get_start_performance_NoDup.
Qed.

(** One lap-1 row each for HAM, VER and BOT: two rows, HAM then VER. *)
Lemma start_frame_rows_witness :
  (List.length (get_start_performance Sample.start)
   <= List.length (results Sample.start))%nat
  /\ NoDup (map fst (get_start_performance Sample.start)).
Proof.
  assert (Hlap : NoDup (map lap_Driver (pick_laps 1 (laps Sample.start)))).
  { vm_compute. repeat constructor; simpl; intuition discriminate. }
  destruct (start_frame_rows Sample.start Hlap) as (Hlen & _ & Hnd).
  split; [exact Hlen|]. apply Hnd.
  simpl. repeat constructor; simpl; intuition discriminate.
Defined.

(** ** The per-race table: the values it joins *)

Lemma join_left_found {A V : Type} (key : A -> string) (right : Indexed V)
      (left : list A) (a : A) (o : option V) :
  In (a, o) (join_left key left right) ->
  In (key a) (map fst right) -> o <> None.
Proof.
  unfold join_left. intros H Hk.
  apply in_flat_map in H. destruct H as (a' & _ & H).
  destruct (matches (key a') right) as [|kv ms] eqn:E.
  - simpl in H. destruct H as [H|[]]. inversion H; subst a' o.
    exfalso. apply in_map_iff in Hk. destruct Hk as ([k v] & Hfst & Hin).
    simpl in Hfst. subst k.
    assert (Hm : In (key a, v) (matches (key a) right)).
    { unfold matches. apply filter_In. split; [exact Hin|].
      simpl. apply String.eqb_refl. }
    rewrite E in Hm. destruct Hm.
  - rewrite <- E in H. apply in_map_iff in H.
    destruct H as (kv' & Heq & _). inversion Heq. discriminate.
Qed.

(** A duplicate-free index gives one value per label. *)
Lemma index_value_unique {V : Type} (right : Indexed V) (k : string) (v v' : V) :
  NoDup (map fst right) -> In (k, v) right -> In (k, v') right -> v = v'.
Proof.
  induction right as [|[k0 v0] tl IH]; simpl; intros Hnd H1 H2; [destruct H1|].
  inversion Hnd as [|? ? Hk Htl]; subst.
  destruct H1 as [H1|H1], H2 as [H2|H2].
  - congruence.
  - inversion H1; subst. exfalso. apply Hk.
    apply in_map_iff. exists (k, v'). auto.
  - inversion H2; subst. exfalso. apply Hk.
    apply in_map_iff. exists (k, v). auto.
  - now apply IH.
Qed.

(** Joined on a duplicate-free index, a left row whose label the index
    has carries the value the index has for it. *)
Lemma join_left_value {A V : Type} (key : A -> string) (right : Indexed V)
      (left : list A) (a : A) (o : option V) :
  In (a, o) (join_left key left right) ->
  NoDup (map fst right) ->
  forall v, In (key a, v) right -> o = Some v.
Proof.
  intros Hin Hnd v Hv.
  assert (Hk : In (key a) (map fst right))
    by (apply in_map_iff; exists (key a, v); auto).
  pose proof (join_left_found _ _ _ _ _ Hin Hk) as Hne.
  apply join_left_In in Hin. destruct Hin as [_ Hval].
  destruct o as [v'|]; [|congruence].
  f_equal. apply (index_value_unique right (key a)); auto.
Qed.

(** The metrics of a row whose driver the extractors list. *)
Lemma race_df_values (session : Session) (event : Event) (year : Z)
      (row : RaceRow) :
  In row (race_df session event year) ->
  (forall v, In (Driver row, v) (get_top_speeds (laps session)) ->
             TopSpeedST row = Some v)
  /\ (In (Driver row) (map fst (get_start_performance session)) ->
      exists v, PositionsGained row = Some v
                /\ In (Driver row, v) (get_start_performance session))
  /\ (forall d c, In (Driver row, (d, c)) (get_stint_performance (laps session)) ->
                  AvgDegradation row = Some d /\ AvgConsistency row = Some c).
Proof.
  intros Hin. unfold race_df in Hin. apply in_map_iff in Hin.
  destruct Hin as ([[[res speed] gained] stint] & Hrow & H3).
  pose proof (join_left_value _ _ _ _ _ H3) as V3.
  apply join_left_In in H3. destruct H3 as [H2 _].
  pose proof (join_left_found _ _ _ _ _ H2) as F2.
  pose proof (join_left_In _ _ _ _ _ H2) as [H1 I2].
  pose proof (join_left_value _ _ _ _ _ H1) as V1.
  subst row. simpl in *.
  split; [|split].
  - intros v Hv. exact (V1 (get_top_speeds_NoDup (laps session)) v Hv).
  - intros Hk. specialize (F2 Hk).
    destruct gained as [v|]; [|congruence]. exists v. auto.
  - intros d c Hv.
    rewrite (V3 (get_stint_performance_NoDup (laps session)) (d, c) Hv).
    auto.
Qed.

(** The nulls of a row, column by column. *)
Lemma race_df_metric_nulls (session : Session) (event : Event) (year : Z)
      (row : RaceRow) (column : string) :
  In row (race_df session event year) ->
  In column metric_columns ->
  ~ In (Driver row) (extractor_index session column) ->
  metric_of row column = None.
Proof.
  intros Hin Hcol Hno.
  pose proof (race_df_nulls session event year row Hin) as (Hs & Hg & Hst).
  unfold metric_columns in Hcol. simpl in Hcol.
  destruct Hcol as [<-|[<-|[<-|[<-|[]]]]];
    unfold extractor_index, metric_of in *; simpl in *; tauto.
Qed.

(** ** The per-race table is a left join on the results *)

(** C4 as first stated fails where no driver of the race has a
    qualifying stint: [get_stint_performance] then returns the empty
    frame, the per-race table of [Sample.start] has no AvgDegradation
    column, and ALB's row has no cell, null or other, in it. *)
Lemma C4_stint_columns_absent :
  ~ (forall session event year row column,
        In row (race_df session event year) ->
        In column metric_columns ->
        ~ In (Driver row) (extractor_index session column) ->
        exists v, race_cell session row column = Some v
                  /\ PrimFloat.is_nan v = true).
Proof.
  intros H.
  destruct (H Sample.start Sample.race 2024%Z Scenario.alb_row "AvgDegradation")
    as (v & Hcell & _).
  - vm_compute. tauto.
  - unfold metric_columns. simpl. tauto.
  - vm_compute. tauto.
  - vm_compute in Hcell. discriminate.
Qed.

(** C4, as the code has it: the per-race table keeps every row of the
    official results, and every row of the table is a results row with
    the extractors' frames joined on the driver.  On a row whose driver
    an extractor lists, the metric is the value the extractor has for
    the driver; on a row whose driver it does not list, and so on every
    metric of a driver without any lap record, the metric is null.  The
    columns TopSpeedST and PositionsGained are always there; the columns
    AvgDegradation and AvgConsistency are there exactly when the stint
    frame has a row, and the table has no such cell otherwise.  With
    one results row and at most one lap-1 row per driver the table has
    exactly the drivers of the results, in their order. *)
Theorem C4_results_rows_joined
        (session : Session) (event : Event) (year : Z) :
  (forall res,
      In res (results session) ->
      exists row,
        In row (race_df session event year)
        /\ Driver row = res_Abbreviation res
        /\ TeamName row = res_TeamName res
        /\ Position row = res_Position res
        /\ Points row = res_Points res)
  /\ (forall row,
         In row (race_df session event year) ->
         In (Driver row) (map res_Abbreviation (results session))
         /\ (forall v, In (Driver row, v) (get_top_speeds (laps session)) ->
                       TopSpeedST row = Some v)
         /\ (In (Driver row) (map fst (get_start_performance session)) ->
             exists v, PositionsGained row = Some v
                       /\ In (Driver row, v) (get_start_performance session))
         /\ (forall d c,
                In (Driver row, (d, c)) (get_stint_performance (laps session)) ->
                AvgDegradation row = Some d /\ AvgConsistency row = Some c)
         /\ (forall column,
                In column metric_columns ->
                ~ In (Driver row) (extractor_index session column) ->
                metric_of row column = None
                /\ (In column (race_columns session) ->
                    race_cell session row column = Some nan)
                /\ (~ In column (race_columns session) ->
                    race_cell session row column = None))
         /\ (~ In (Driver row) (map lap_Driver (laps session)) ->
             TopSpeedST row = None /\ PositionsGained row = None
             /\ AvgDegradation row = None /\ AvgConsistency row = None))
  /\ (In "TopSpeedST" (race_columns session)
      /\ In "PositionsGained" (race_columns session)
      /\ (forall column,
             In column ["AvgDegradation"; "AvgConsistency"] ->
             (In column (race_columns session) <->
              get_stint_performance (laps session) <> [])))
  /\ (NoDup (map res_Abbreviation (results session)) ->
      NoDup (map lap_Driver (pick_laps 1 (laps session))) ->
      map Driver (race_df session event year)
      = map res_Abbreviation (results session)).
Proof.
  split; [apply race_df_keeps|]. split; [|split].
  - intros row Hin.
    pose proof (race_df_origin _ _ _ _ Hin) as [(res & Hres & Hd & _) _].
    pose proof (race_df_values _ _ _ _ Hin) as (Vs & Vg & Vst).
    split; [rewrite Hd; now apply in_map|].
    split; [exact Vs|]. split; [exact Vg|]. split; [exact Vst|].
    split; [|exact (race_df_no_laps session event year row Hin)].
    intros column Hcol Hno.
    pose proof (race_df_metric_nulls _ _ _ _ _ Hin Hcol Hno) as Hnone.
    split; [exact Hnone|]. unfold race_cell. rewrite Hnone. split.
    + intros Hc.
      assert (E : existsb (String.eqb column) (race_columns session) = true).
      { apply existsb_exists. exists column. split; [exact Hc|].
        apply String.eqb_refl. }
      now rewrite E.
    + intros Hc.
      destruct (existsb (String.eqb column) (race_columns session)) eqn:E;
        [|reflexivity].
      exfalso. apply Hc. apply existsb_exists in E.
      destruct E as (c & Hin' & Heq). apply String.eqb_eq in Heq. now subst c.
  - unfold race_columns, stint_columns.
    split; [simpl; tauto|]. split; [simpl; tauto|].
    intros column Hcol. simpl in Hcol.
    destruct (get_stint_performance (laps session)); simpl;
      destruct Hcol as [<-|[<-|[]]]; split; intros H;
      try congruence; try tauto;
      repeat (destruct H as [H|H]; try discriminate H); try destruct H.
  - apply race_df_one_row_each.
Qed.

(** In the race of [Scenario.with_stint] VER's row has the slope of
    VER's stint and ALB's row a null in the stint columns; in the race of
    [Sample.start], where no driver has a stint of three clean laps,
    ALB's row has a null top speed and the table no AvgDegradation
    column. *)
Lemma C4_results_rows_joined_witness :
  In Scenario.ver_stint_row (race_df Scenario.with_stint Sample.race 2024)
  /\ In Scenario.alb_stint_row (race_df Scenario.with_stint Sample.race 2024)
  /\ In Scenario.alb_row (race_df Sample.start Sample.race 2024)
  /\ AvgDegradation Scenario.ver_stint_row = Some 1
  /\ race_cell Scenario.with_stint Scenario.alb_stint_row "AvgDegradation"
     = Some nan
  /\ race_cell Sample.start Scenario.alb_row "TopSpeedST" = Some nan
  /\ race_cell Sample.start Scenario.alb_row "AvgDegradation" = None.
Proof.
  destruct (C4_results_rows_joined Scenario.with_stint Sample.race 2024)
    as (_ & Hrows & _).
  destruct (C4_results_rows_joined Sample.start Sample.race 2024)
    as (_ & Hrows' & _).
  assert (Hver : In Scenario.ver_stint_row
                    (race_df Scenario.with_stint Sample.race 2024))
    by (vm_compute; tauto).
  assert (Halb : In Scenario.alb_stint_row
                    (race_df Scenario.with_stint Sample.race 2024))
    by (vm_compute; tauto).
  assert (Halb' : In Scenario.alb_row (race_df Sample.start Sample.race 2024))
    by (vm_compute; tauto).
  destruct (Hrows _ Hver) as (_ & _ & _ & Hst & _).
  destruct (Hrows _ Halb) as (_ & _ & _ & _ & Hnull & _).
  destruct (Hrows' _ Halb') as (_ & _ & _ & _ & Hnull' & _).
  split; [exact Hver|]. split; [exact Halb|]. split; [exact Halb'|].
  split; [|split; [|split]].
  - apply (Hst 1 (Pd.std [90; 91; 92; 93])). vm_compute. tauto.
  - apply (Hnull "AvgDegradation").
    + unfold metric_columns. simpl. tauto.
    + vm_compute. intuition discriminate.
    + vm_compute. tauto.
  - apply (Hnull' "TopSpeedST").
    + unfold metric_columns. simpl. tauto.
    + vm_compute. intuition discriminate.
    + vm_compute. tauto.
  - apply (Hnull' "AvgDegradation").
    + unfold metric_columns. simpl. tauto.
    + vm_compute. tauto.
    + vm_compute. intuition discriminate.
Defined.

(** ** The per-race table: when a cell is null *)

Lemma driver_speeds_In (ls : list Lap) (d : string) (x : float) :
  In x (map lap_SpeedST (pick_drivers d ls)) <->
  exists l, In l ls /\ lap_Driver l = d /\ lap_SpeedST l = x.
Proof.
  unfold pick_drivers. rewrite in_map_iff. split.
  - intros (l & Hx & Hl). apply filter_In in Hl. destruct Hl as [Hl Hd].
    apply String.eqb_eq in Hd. exists l. auto.
  - intros (l & Hl & Hd & Hx). exists l. split; [exact Hx|].
    apply filter_In. split; [exact Hl|]. now apply String.eqb_eq.
Qed.

Lemma get_top_speeds_value (ls : list Lap) (d : string) (v : float) :
  In (d, v) (get_top_speeds ls) <->
  In d (map lap_Driver ls) /\ v = Pd.max (map lap_SpeedST (pick_drivers d ls)).
Proof.
  unfold get_top_speeds. rewrite in_map_iff. split.
  - intros (d' & Heq & Hd). inversion Heq; subst.
    split; [now apply group_keys_In|reflexivity].
  - intros [Hd ->]. exists d. split; [reflexivity|now apply group_keys_In].
Qed.

Lemma isna_false (o : option float) :
  isna o = false <-> exists v, o = Some v /\ F64.notnan v = true.
Proof.
  unfold isna, F64.notnan. destruct o as [v|]; simpl.
  - split.
    + intros H. exists v. now rewrite H.
    + intros (v' & Hv & H). inversion Hv; subst.
      now apply negb_true_iff in H.
  - split; [intros H; vm_compute in H; discriminate|].
    intros (v & Hv & _). discriminate.
Qed.

(** X6: as pandas holds the per-race table, with NaN the one null: the
    TopSpeedST cell of a row is not null exactly when the row's driver
    has a lap with a recorded trap speed, and it is then one of the
    driver's recorded trap speeds, none of which is above it; a
    PositionsGained cell that is not null is the grid position minus the
    lap-1 position of the driver; an AvgDegradation cell that is not null
    is the slope average the stint frame has for the driver, and the
    row's AvgConsistency is the one beside it. *)
Theorem race_df_cells
        (session : Session) (event : Event) (year : Z) (row : RaceRow) :
  In row (race_df session event year) ->
  (isna (TopSpeedST row) = false <->
   exists l, In l (laps session) /\ lap_Driver l = Driver row
             /\ F64.notnan (lap_SpeedST l) = true)
  /\ (isna (TopSpeedST row) = false ->
      (exists l, In l (laps session) /\ lap_Driver l = Driver row
                 /\ lap_SpeedST l = cell (TopSpeedST row))
      /\ forall l, In l (laps session) -> lap_Driver l = Driver row ->
                   F64.notnan (lap_SpeedST l) = true ->
                   (lap_SpeedST l <=? cell (TopSpeedST row)) = true)
  /\ (isna (PositionsGained row) = false ->
      exists g l,
        In g (results session) /\ In l (laps session)
        /\ (lap_LapNumber l =? 1) = true
        /\ res_Abbreviation g = Driver row /\ lap_Driver l = Driver row
        /\ (0 <? res_GridPosition g) = true
        /\ cell (PositionsGained row) = res_GridPosition g - lap_Position l)
  /\ (isna (AvgDegradation row) = false ->
      exists c,
        In (Driver row, (cell (AvgDegradation row), c))
           (get_stint_performance (laps session))
        /\ AvgConsistency row = Some c).
Proof.
  intros Hin.
  pose proof (race_df_origin _ _ _ _ Hin) as (_ & Os & Og & Od & _).
  pose proof (race_df_values _ _ _ _ Hin) as (Vs & _ & Vst).
  set (d := Driver row) in *.
  set (speeds := map lap_SpeedST (pick_drivers d (laps session))).
  destruct (pd_max_spec speeds) as [Hnone Hsome].
  assert (Hdrop : forall x, In x (Pd.dropna speeds) <->
                            In x speeds /\ F64.notnan x = true)
    by (intros x; unfold Pd.dropna; apply filter_In).
  assert (Hcell : isna (TopSpeedST row) = false ->
                  TopSpeedST row = Some (Pd.max speeds)
                  /\ F64.notnan (Pd.max speeds) = true
                  /\ Pd.dropna speeds <> []).
  { intros H. apply isna_false in H. destruct H as (v & Hv & Hnn).
    pose proof (Os v Hv) as Hin'. apply get_top_speeds_value in Hin'.
    destruct Hin' as [_ Heq]. fold speeds in Heq. subst v.
    split; [exact Hv|]. split; [exact Hnn|].
    intros E. rewrite (Hnone E) in Hnn. vm_compute in Hnn. discriminate. }
  split; [|split; [|split]].
  - split.
    + intros H. destruct (Hcell H) as (_ & _ & Hne).
      destruct (Pd.dropna speeds) as [|x tl] eqn:E; [congruence|].
      assert (Hx : In x (x :: tl)) by now left.
      apply Hdrop in Hx. destruct Hx as [Hx Hnn].
      apply driver_speeds_In in Hx. destruct Hx as (l & Hl & Hd & Hv).
      exists l. subst x. auto.
    + intros (l & Hl & Hd & Hnn).
      assert (Hx : In (lap_SpeedST l) (Pd.dropna speeds)).
      { apply Hdrop. split; [|exact Hnn]. apply driver_speeds_In. exists l. auto. }
      assert (Hne : Pd.dropna speeds <> [])
        by (intros E; rewrite E in Hx; exact Hx).
      destruct (Hsome Hne) as (_ & Hr & _).
      assert (Hrow : TopSpeedST row = Some (Pd.max speeds)).
      { apply Vs. apply get_top_speeds_value. split; [|reflexivity].
        apply in_map_iff. exists l. auto. }
      apply isna_false. exists (Pd.max speeds). auto.
  - intros H. destruct (Hcell H) as (Hrow & _ & Hne).
    destruct (Hsome Hne) as (Hmax & _ & Hup).
    rewrite Hrow. simpl. split.
    + now apply driver_speeds_In.
    + intros l Hl Hd Hnn. apply Hup; [|exact Hnn].
      apply driver_speeds_In. exists l. auto.
  - intros H. apply isna_false in H. destruct H as (v & Hv & _).
    pose proof (Og v Hv) as Hin'. apply get_start_performance_In in Hin'.
    destruct Hin' as (g & l & Hg & Hl & Hone & Ha & Hd & Hpos & Hpg).
    exists g, l. rewrite Hv. simpl. repeat split; auto.
  - intros H. apply isna_false in H. destruct H as (v & Hv & _).
    destruct (Od v Hv) as (c & Hin').
    exists c. rewrite Hv. simpl. split; [exact Hin'|].
    now destruct (Vst v c Hin').
Qed.

(** HAM has trap speeds and the cell is 300; VER of [Scenario.no_trap]
    is in the frame of top speeds, with NaN, and the cell is null. *)
Lemma race_df_cells_witness :
  In Scenario.ham_row (race_df Sample.start Sample.race 2024)
  /\ In Scenario.no_trap_row (race_df Scenario.no_trap Sample.race 2024)
  /\ (exists l, In l (laps Sample.start) /\ lap_Driver l = "HAM"
             /\ lap_SpeedST l = 300)
  /\ isna (TopSpeedST Scenario.no_trap_row) = true
  /\ ~ (exists l, In l (laps Scenario.no_trap) /\ lap_Driver l = "VER"
                  /\ F64.notnan (lap_SpeedST l) = true).
Proof.
  assert (Hham : In Scenario.ham_row (race_df Sample.start Sample.race 2024))
    by (vm_compute; tauto).
  assert (Hver : In Scenario.no_trap_row
                    (race_df Scenario.no_trap Sample.race 2024))
    by (vm_compute; tauto).
  destruct (race_df_cells Sample.start Sample.race 2024 Scenario.ham_row Hham)
    as (_ & Hmax & _).
  destruct (race_df_cells Scenario.no_trap Sample.race 2024
                          Scenario.no_trap_row Hver) as (Hiff & _).
  split; [exact Hham|]. split; [exact Hver|].
  split; [|split].
  - apply Hmax. vm_compute. reflexivity.
  - vm_compute. reflexivity.
  - intros Hex. apply Hiff in Hex. vm_compute in Hex. discriminate.
Defined.

(** ** main: what is written, and when *)

Lemma fold_try_race_frames (api : Fastf1) (year : Z) (events : list Event)
      (all_race_data : list (list RaceRow)) :
  fold_left (try_race api year) events all_race_data
  = all_race_data ++ flat_map (race_frame api year) events.
Proof.
  revert all_race_data.
  induction events as [|e tl IH]; intros all_race_data; simpl.
  - now rewrite app_nil_r.
  - rewrite IH. unfold try_race, race_frame.
    destruct (get_session api year (EventName e)); simpl.
    + now rewrite <- app_assoc.
    + reflexivity.
Qed.

Lemma event_loop_frames (api : Fastf1) (year : Z) (schedule : list Event)
      (all_race_data : list (list RaceRow)) :
  event_loop api year schedule all_race_data
  = all_race_data ++ season_frames api year schedule.
Proof.
  unfold event_loop, season_frames.
  rewrite fold_event_step. apply fold_try_race_frames.
Qed.

(** The year loop either stops at the first season without a schedule or
    collects the frames of all seasons in order. *)
Lemma year_loop_frames (api : Fastf1) (years : list Z)
      (all_race_data : list (list RaceRow)) :
  (exists before year after,
      years = before ++ year :: after
      /\ (forall y, In y before -> get_event_schedule api y <> None)
      /\ get_event_schedule api year = None
      /\ year_loop api years all_race_data = inl (ScheduleError year))
  \/ ((forall y, In y years -> get_event_schedule api y <> None)
      /\ year_loop api years all_race_data
         = inr (all_race_data
                ++ flat_map (fun y => season_frames api y (schedule_of api y)) years)).
Proof.
  revert all_race_data.
  induction years as [|year rest IH]; intros all_race_data; simpl.
  - right. split; [tauto|]. now rewrite app_nil_r.
  - unfold schedule_of at 1.
    destruct (get_event_schedule api year) as [schedule|] eqn:E.
    + destruct (IH (event_loop api year schedule all_race_data))
        as [(before & y & after & Hy & Hb & Hn & Hl)|[Hall Hl]].
      * left. exists (year :: before), y, after. subst rest.
        repeat split; auto.
        intros y' [<-|Hy']; [congruence|now apply Hb].
      * right. split.
        -- intros y [<-|Hy]; [congruence|now apply Hall].
        -- rewrite Hl, event_loop_frames, <- app_assoc. reflexivity.
    + left. exists [], year, rest. repeat split; auto; intros ? [].
Qed.

(** X7: when every configured season has a schedule, [main] writes the
    frames of all races whose session loads, concatenated season by
    season in the order of YEARS_TO_ANALYZE and race by race in schedule
    order, and ends without an exception; unless there is no such frame,
    in which case it writes nothing. *)
Theorem main_writes_frames_in_order (api : Fastf1) (file : File) :
  (forall y, In y YEARS_TO_ANALYZE -> get_event_schedule api y <> None) ->
  let frames :=
    flat_map (fun y => season_frames api y (schedule_of api y)) YEARS_TO_ANALYZE in
  (frames <> [] -> main api file = (None, Some (List.concat frames)))
  /\ (frames = [] -> main api file = (Some NoObjectsToConcatenate, file)).
Proof.
  intros Hall frames. unfold main.
  destruct (year_loop_frames api YEARS_TO_ANALYZE [])
    as [(before & y & after & Hy & _ & Hn & _)|[_ Hl]].
  - exfalso. apply (Hall y); [|exact Hn]. rewrite Hy. apply in_elt.
  - rewrite Hl, app_nil_l. fold frames. clearbody frames.
    destruct frames; split; intros H; simpl; congruence.
Qed.

(** X8: when a configured season has no schedule, [main] ends in the
    schedule error of the first such season and writes nothing, whatever
    the seasons before it gave. *)
Theorem main_schedule_error (api : Fastf1) (file : File) (year : Z) :
  In year YEARS_TO_ANALYZE ->
  get_event_schedule api year = None ->
  exists before first after,
    YEARS_TO_ANALYZE = before ++ first :: after
    /\ (forall y, In y before -> get_event_schedule api y <> None)
    /\ get_event_schedule api first = None
    /\ main api file = (Some (ScheduleError first), file).
Proof.
  intros Hin Hnone. unfold main.
  destruct (year_loop_frames api YEARS_TO_ANALYZE [])
    as [(before & y & after & Hy & Hb & Hn & Hl)|[Hall _]].
  - exists before, y, after. rewrite Hl. auto.
  - exfalso. now apply (Hall year).
Qed.

(** X9: every row [main] writes carries one of the configured seasons,
    the name and date of an event of that season's schedule that is
    neither the first entry nor a testing event, and a driver of the
    results of that event's race session. *)
Theorem main_rows_provenance (api : Fastf1) (file : File)
        (table : list RaceRow) (row : RaceRow) :
  main api file = (None, Some table) ->
  In row table ->
  In (Season row) YEARS_TO_ANALYZE
  /\ exists schedule event session,
      get_event_schedule api (Season row) = Some schedule
      /\ In event (filter is_race (skipn 1 schedule))
      /\ get_session api (Season row) (EventName event) = Some session
      /\ RaceName row = EventName event
      /\ RaceDate row = EventDate event
      /\ In (Driver row) (map res_Abbreviation (results session)).
Proof.
  unfold main. intros Hmain Hrow.
  destruct (year_loop_frames api YEARS_TO_ANALYZE [])
    as [(before & y & after & _ & _ & _ & Hl)|[Hall Hl]];
    rewrite Hl in Hmain; [discriminate|].
  rewrite app_nil_l in Hmain.
  destruct (flat_map _ YEARS_TO_ANALYZE) as [|fr frs] eqn:E;
    unfold pd_concat in Hmain; [discriminate|].
  assert (Ht : table = List.concat (fr :: frs)) by congruence.
  rewrite Ht, <- E in Hrow. clear Hl E Ht Hmain fr frs.
  apply in_concat in Hrow. destruct Hrow as (frame & Hframe & Hrow).
  apply in_flat_map in Hframe. destruct Hframe as (y & Hy & Hframe).
  unfold season_frames in Hframe.
  apply in_flat_map in Hframe. destruct Hframe as (event & Hev & Hframe).
  unfold race_frame in Hframe.
  destruct (get_session api y (EventName event)) as [session|] eqn:Es;
    [|destruct Hframe].
  destruct Hframe as [<-|[]].
  pose proof (race_df_origin session event y row Hrow)
    as ((res & Hres & Hd & _) & _ & _ & _ & _ & Hn & Hdate & Hseason).
  rewrite Hseason. split; [exact Hy|].
  unfold schedule_of in Hev.
  destruct (get_event_schedule api y) as [schedule|] eqn:Esch.
  - exists schedule, event, session. repeat split; auto.
    rewrite Hd. now apply in_map.
  - simpl in Hev. destruct Hev.
Qed.

(** With one race that loads, the file holds that race's table. *)
Lemma main_writes_frames_witness :
  main Scenario.one_race Sample.previous
  = (None, Some (race_df Sample.start Sample.race 2024)).
Proof.
  assert (Hall : forall y, In y YEARS_TO_ANALYZE ->
                           get_event_schedule Scenario.one_race y <> None)
    by (intros y _; simpl; discriminate).
  destruct (main_writes_frames_in_order Scenario.one_race Sample.previous Hall)
    as [Hw _].
  rewrite Hw; [vm_compute; reflexivity|vm_compute; discriminate].
Defined.

(** Without the 2023 schedule nothing is written, although the 2024 race
    had loaded before. *)
Lemma main_schedule_error_witness :
  exists first,
    get_event_schedule Scenario.no_2023 first = None
    /\ main Scenario.no_2023 Sample.previous
       = (Some (ScheduleError first), Sample.previous).
Proof.
  destruct (main_schedule_error Scenario.no_2023 Sample.previous 2023)
    as (before & first & after & _ & _ & Hn & Hm).
  - unfold YEARS_TO_ANALYZE. simpl. tauto.
  - reflexivity.
  - exists first. split; [exact Hn|exact Hm].
Defined.

(** HAM's row of the one race that loads. *)
Lemma main_rows_provenance_witness :
  In (Season Scenario.ham_row) YEARS_TO_ANALYZE
  /\ exists schedule event session,
      get_event_schedule Scenario.one_race (Season Scenario.ham_row) = Some schedule
      /\ In event (filter is_race (skipn 1 schedule))
      /\ get_session Scenario.one_race (Season Scenario.ham_row) (EventName event)
         = Some session
      /\ RaceName Scenario.ham_row = EventName event
      /\ RaceDate Scenario.ham_row = EventDate event
      /\ In (Driver Scenario.ham_row) (map res_Abbreviation (results session)).
Proof.
  apply (main_rows_provenance Scenario.one_race Sample.previous
           (race_df Sample.start Sample.race 2024) Scenario.ham_row).
  - vm_compute. reflexivity.
  - vm_compute. left. reflexivity.
Defined.

(** ** weekly_pull.py: which sessions are requested *)

Lemma session_calls_app (a b : list Entry) :
  session_calls (a ++ b) = session_calls a ++ session_calls b.
Proof.
  unfold session_calls. apply flat_map_app.
Qed.

Lemma outcomes_app (a b : list Entry) :
  List.length (filter is_outcome (a ++ b))
  = (List.length (filter is_outcome a) + List.length (filter is_outcome b))%nat.
Proof.
  now rewrite filter_app, length_app.
Qed.

(** One request, one line about how it ended, whatever the server says. *)
Lemma check_session_calls (server : Server) (year : Z) (event : Event)
      (session_name : string) :
  session_calls (check_session server year event session_name)
  = [(EventName event, session_name)]
  /\ List.length (filter is_outcome (check_session server year event session_name))
     = 1%nat.
Proof.
  unfold check_session.
  destruct (load_session server year (EventName event) session_name)
    as [[ | | ]|]; split; reflexivity.
Qed.

Lemma checking_event_line (name : string) (year : Z) (l : list Entry) :
  session_calls (CheckingEvent name year :: l) = session_calls l
  /\ List.length (filter is_outcome (CheckingEvent name year :: l))
     = List.length (filter is_outcome l).
Proof.
  split; reflexivity.
Qed.

Lemma check_event_calls (server : Server) (year : Z) (trace : list Entry)
      (event : Event) :
  session_calls (check_event server year trace event)
  = session_calls trace
    ++ (if is_race event
        then [(EventName event, "Qualifying"); (EventName event, "Race")]
        else [])
  /\ List.length (filter is_outcome (check_event server year trace event))
     = (List.length (filter is_outcome trace)
        + (if is_race event then 2 else 0))%nat.
Proof.
  unfold check_event, is_race.
  destruct (String.eqb (EventFormat event) "testing"); cbn [negb].
  - rewrite app_nil_r. split; [reflexivity|lia].
  - unfold SESSIONS. cbn [flat_map]. rewrite app_nil_r.
    rewrite session_calls_app, outcomes_app.
    destruct (checking_event_line
                (EventName event) year
                (check_session server year event "Qualifying"
                 ++ check_session server year event "Race")) as [-> ->].
    rewrite session_calls_app, outcomes_app.
    destruct (check_session_calls server year event "Qualifying") as [-> ->].
    destruct (check_session_calls server year event "Race") as [-> ->].
    split; reflexivity.
Qed.

Lemma fold_check_event_calls (server : Server) (year : Z) (events : list Event)
      (trace : list Entry) :
  let trace' := fold_left (check_event server year) events trace in
  session_calls trace'
  = session_calls trace
    ++ flat_map (fun e => [(EventName e, "Qualifying"); (EventName e, "Race")])
                (filter is_race events)
  /\ List.length (filter is_outcome trace')
     = (List.length (filter is_outcome trace)
        + 2 * List.length (filter is_race events))%nat.
Proof.
  revert trace. induction events as [|e tl IH]; intros trace; simpl.
  - rewrite app_nil_r. split; [reflexivity|lia].
  - destruct (IH (check_event server year trace e)) as [Hc Ho].
    destruct (check_event_calls server year trace e) as [Hc1 Ho1].
    rewrite Hc, Ho, Hc1, Ho1.
    destruct (is_race e); simpl.
    + rewrite <- app_assoc. split; [reflexivity|lia].
    + rewrite app_nil_r. split; [reflexivity|lia].
Qed.

Lemma two_sessions_each (events : list Event) :
  List.length
    (flat_map (fun e => [(EventName e, "Qualifying"); (EventName e, "Race")])
              events)
  = (2 * List.length events)%nat.
Proof.
  induction events as [|e tl IH]; [reflexivity|].
  cbn [flat_map app List.length]. rewrite IH. lia.
Qed.

(** The sessions the weekly pull requests are, for each event of
    the current year's schedule dated before now, leaving out the first
    such event and the testing events, its Qualifying and then its Race,
    in schedule order; every request is followed by one line on how it
    ended, and no answer of the server changes which sessions are
    requested.  Without the cache directory or without a schedule nothing
    is requested. *)
Lemma weekly_pull_requests_aux
        (cache_exists : bool) (server : Server) (CURRENT_YEAR now : Z) :
  let trace := weekly_pull cache_exists server CURRENT_YEAR now in
  session_calls trace
  = (if cache_exists
     then flat_map (fun e => [(EventName e, "Qualifying"); (EventName e, "Race")])
                   (events_to_check (schedule_of_server server CURRENT_YEAR) now)
     else [])
  /\ List.length (filter is_outcome trace) = List.length (session_calls trace).
Proof.
  unfold weekly_pull, schedule_of_server, events_to_check.
  destruct cache_exists; cbn [negb]; [|split; reflexivity].
  destruct (event_schedule server CURRENT_YEAR) as [schedule|];
    [|split; reflexivity].
  cbv zeta. rewrite !session_calls_app, !outcomes_app.
  destruct (fold_check_event_calls
              server CURRENT_YEAR
              (skipn 1 (filter (fun e => (EventDate e <? now)%Z) schedule)) [])
    as [Hc Ho].
  cbv zeta in Hc, Ho. rewrite Hc, Ho.
  change (session_calls [CacheEnabled; CheckingSeason CURRENT_YEAR])
    with (@nil (string * string)).
  change (session_calls [CheckComplete CURRENT_YEAR])
    with (@nil (string * string)).
  change (session_calls []) with (@nil (string * string)).
  rewrite !app_nil_l, !app_nil_r, two_sessions_each.
  split; [reflexivity|]. simpl. lia.
Qed.

Lemma check_session_trace (server : Server) (year : Z) (event : Event)
      (session_name : string) :
  check_session server year event session_name
  = [ GetSession year (EventName event) session_name;
      outcome_of (load_session server year (EventName event) session_name)
                 session_name ].
Proof.
  unfold check_session, outcome_of.
  destruct (load_session server year (EventName event) session_name)
    as [[ | | ]|]; reflexivity.
Qed.

Lemma fold_check_event_trace (server : Server) (year : Z) (events : list Event)
      (trace : list Entry) :
  fold_left (check_event server year) events trace
  = trace ++ flat_map (event_trace server year) (filter is_race events).
Proof.
  revert trace. induction events as [|e tl IH]; intros trace.
  - simpl. now rewrite app_nil_r.
  - cbn [fold_left filter]. rewrite IH. unfold check_event, is_race.
    destruct (String.eqb (EventFormat e) "testing"); cbn [negb].
    + reflexivity.
    + cbn [flat_map]. unfold SESSIONS. cbn [flat_map].
      rewrite !check_session_trace, <- app_assoc. reflexivity.
Qed.

(** X10: the whole trace of the weekly pull.  After the two opening
    lines it holds, for each event of the current year's schedule dated
    before now, leaving out the first such event and the testing events,
    in schedule order: the line that names the event, the request for its
    Qualifying, the line on how that request ended, the request for its
    Race, and the line on how that one ended; then the closing line.  So
    every request is followed at once by the one line on its outcome, and
    no answer of the server changes which sessions are requested.
    Without a schedule the trace is the opening lines and the error line,
    and without the cache directory the one error line. *)
Theorem weekly_pull_requests
        (cache_exists : bool) (server : Server) (CURRENT_YEAR now : Z) :
  let trace := weekly_pull cache_exists server CURRENT_YEAR now in
  trace
  = (if cache_exists
     then [CacheEnabled; CheckingSeason CURRENT_YEAR]
          ++ match event_schedule server CURRENT_YEAR with
             | None => [ScheduleFailed CURRENT_YEAR]
             | Some schedule =>
                 flat_map (event_trace server CURRENT_YEAR)
                          (events_to_check schedule now)
                 ++ [CheckComplete CURRENT_YEAR]
             end
     else [CacheNotFound])
  /\ session_calls trace
     = (if cache_exists
        then flat_map (fun e => [(EventName e, "Qualifying"); (EventName e, "Race")])
                      (events_to_check (schedule_of_server server CURRENT_YEAR) now)
        else [])
  /\ List.length (filter is_outcome trace) = List.length (session_calls trace).
Proof.
  split; [|apply weekly_pull_requests_aux].
  unfold weekly_pull, events_to_check.
  destruct cache_exists; cbn [negb]; [|reflexivity].
  destruct (event_schedule server CURRENT_YEAR) as [schedule|]; [|reflexivity].
  cbv zeta. rewrite fold_check_event_trace. reflexivity.
Qed.

(** X11: the weekly pull never requests a session of an event that is
    dated at or after now, or of a testing event, or a session other than
    Qualifying and Race. *)
Theorem weekly_pull_only_past_races
        (cache_exists : bool) (server : Server) (CURRENT_YEAR now : Z)
        (name session_name : string) :
  In (name, session_name)
     (session_calls (weekly_pull cache_exists server CURRENT_YEAR now)) ->
  In session_name SESSIONS
  /\ exists schedule event,
      event_schedule server CURRENT_YEAR = Some schedule
      /\ In event schedule
      /\ EventName event = name
      /\ (EventDate event < now)%Z
      /\ EventFormat event <> "testing".
Proof.
  intros H.
  rewrite (proj1 (weekly_pull_requests_aux cache_exists server CURRENT_YEAR now))
    in H.
  destruct cache_exists; [|destruct H].
  apply in_flat_map in H. destruct H as (e & He & Hin).
  unfold events_to_check in He. apply filter_In in He.
  destruct He as [He Hrace].
  assert (Hpast : In e (filter (fun e => (EventDate e <? now)%Z)
                               (schedule_of_server server CURRENT_YEAR))).
  { destruct (filter _ (schedule_of_server server CURRENT_YEAR)) as [|x tl];
      simpl in He; [destruct He|now right]. }
  apply filter_In in Hpast. destruct Hpast as [Hsched Hdate].
  apply Z.ltb_lt in Hdate.
  unfold is_race in Hrace. apply negb_true_iff, String.eqb_neq in Hrace.
  unfold schedule_of_server in Hsched.
  destruct (event_schedule server CURRENT_YEAR) as [schedule|] eqn:E;
    [|destruct Hsched].
  split.
  - unfold SESSIONS. simpl in Hin |- *.
    destruct Hin as [Hin|[Hin|[]]]; inversion Hin; tauto.
  - exists schedule, e. repeat split; auto.
    simpl in Hin. destruct Hin as [Hin|[Hin|[]]]; inversion Hin; reflexivity.
Qed.

(** At time 25 the third race is still to come: the last request is the
    race of the second weekend. *)
Lemma weekly_pull_only_past_races_witness :
  session_calls (weekly_pull true Scenario.flaky 2025 25)
  = [ ("Australian Grand Prix", "Qualifying"); ("Australian Grand Prix", "Race");
      ("Chinese Grand Prix", "Qualifying"); ("Chinese Grand Prix", "Race") ]
  /\ In "Race" SESSIONS
  /\ exists schedule event,
      event_schedule Scenario.flaky 2025 = Some schedule
      /\ In event schedule
      /\ EventName event = "Chinese Grand Prix"
      /\ (EventDate event < 25)%Z
      /\ EventFormat event <> "testing".
Proof.
  split; [reflexivity|].
  apply (weekly_pull_only_past_races true Scenario.flaky 2025 25
                                     "Chinese Grand Prix" "Race").
  vm_compute. tauto.
Defined.

(** ** The race analyzer page *)

(** X12: the race list of the analyzer holds the name of every event
    that [main] tries for that season, in the same order, preceded by the
    schedule's first entry when that entry is not a testing event: a
    season's opening race is offered by the analyzer and never reaches
    the master table.  Without a schedule the list is empty. *)
Theorem analyzer_race_list (api : Fastf1) (year : Z) :
  match get_event_schedule api year with
  | None => get_race_schedule api year = []
  | Some schedule =>
      (forall all_race_data,
          event_loop api year schedule all_race_data
          = fold_left (try_race api year) (filter is_race (skipn 1 schedule))
                      all_race_data)
      /\ get_race_schedule api year
         = map EventName (filter is_race (firstn 1 schedule))
           ++ map EventName (filter is_race (skipn 1 schedule))
  end.
Proof.
  unfold get_race_schedule.
  destruct (get_event_schedule api year) as [schedule|]; [|reflexivity].
  split.
  - intros all_race_data. apply fold_event_step.
  - rewrite <- map_app, <- filter_app, firstn_skipn. reflexivity.
Qed.

(** On a schedule that opens with a race the analyzer lists three races
    and the event loop tries two. *)
Example analyzer_race_list_sample :
  get_race_schedule Scenario.no_testing 2024
  = ["Australian Grand Prix"; "Chinese Grand Prix"; "Japanese Grand Prix"]
  /\ map EventName (filter is_race (skipn 1 (schedule_of Scenario.no_testing 2024)))
     = ["Chinese Grand Prix"; "Japanese Grand Prix"].
Proof.
  split; reflexivity.
Qed.

Lemma compound_rows_are_stint_rows
      (winner_laps : list CompoundLap) (compound : string) (stint : float) :
  (forall l, In l winner_laps ->
             on_compound compound l = (lap_Stint (lap_row l) =? stint)) ->
  map lap_row (filter (on_compound compound) winner_laps)
  = laps_stint (map lap_row winner_laps) stint.
Proof.
  unfold laps_stint.
  induction winner_laps as [|l tl IH]; intros H; simpl; [reflexivity|].
  rewrite (H l (or_introl eq_refl)).
  destruct (lap_Stint (lap_row l) =? stint); simpl; rewrite IH; auto.
  - intros l' Hl'. apply H. now right.
  - intros l' Hl'. apply H. now right.
Qed.

(** X13: when a compound was run in one stint and that stint on that
    compound only, the analyzer's chart for the compound shows the laps
    that [get_stint_performance] regresses on for the stint, against the
    same stint-lap values; the chart is drawn exactly when the stint
    passes both length tests of the stint loop, and the note about too
    few clean laps appears exactly when it fails the first. *)
Theorem compound_chart_matches_stint
        (winner_laps : list CompoundLap) (compound : string) (stint : float) :
  (forall l, In l winner_laps ->
             on_compound compound l = (lap_Stint (lap_row l) =? stint)) ->
  let driver_laps := map lap_row winner_laps in
  let clean := clean_laps (laps_stint driver_laps stint) in
  let final := final_laps clean in
  compound_step winner_laps compound
  = (if (List.length clean <? 3)%nat then [NotEnoughCleanLaps compound]
     else if (List.length final <? 3)%nat then []
          else [Scatter compound (StintLap final) (map LapTimeSeconds final)])
  /\ (completion_of driver_laps stint <> Continue <->
      compound_step winner_laps compound
      = [Scatter compound (StintLap final) (map LapTimeSeconds final)]).
Proof.
  intros H driver_laps clean final.
  assert (Hstep : compound_step winner_laps compound
                  = (if (List.length clean <? 3)%nat
                     then [NotEnoughCleanLaps compound]
                     else if (List.length final <? 3)%nat then []
                          else [Scatter compound (StintLap final)
                                        (map LapTimeSeconds final)])).
  { unfold compound_step.
    rewrite (compound_rows_are_stint_rows winner_laps compound stint H).
    fold driver_laps. fold clean. fold final.
    destruct (List.length clean <? 3)%nat; [reflexivity|].
    destruct (List.length final <? 3)%nat eqn:E.
    - apply Nat.ltb_lt in E.
      destruct (2 <? List.length final)%nat eqn:E2; [|reflexivity].
      apply Nat.ltb_lt in E2. lia.
    - apply Nat.ltb_ge in E.
      destruct (2 <? List.length final)%nat eqn:E2; [reflexivity|].
      apply Nat.ltb_ge in E2. lia. }
  split; [exact Hstep|].
  rewrite Hstep. unfold completion_of.
  destruct (List.length clean <? 3)%nat eqn:E1.
  - unfold clean in E1.
    rewrite stint_body_short by (left; now apply Nat.ltb_lt).
    simpl. split; [congruence|discriminate].
  - destruct (List.length final <? 3)%nat eqn:E2.
    + unfold final, clean in E2.
      rewrite stint_body_short by (right; now apply Nat.ltb_lt).
      simpl. split; [congruence|discriminate].
    + unfold final, clean in E1, E2.
      rewrite (stint_body_long _ _ _ E1 E2). cbv zeta.
      destruct (Scipy.linregress_slope _ _); simpl;
        (split; [reflexivity|discriminate]).
Qed.

(** MEDIUM was run in the first stint only: four points, stint laps
    1 to 4. *)
Lemma compound_chart_witness :
  compound_step Scenario.two_stints "MEDIUM"
  = [Scatter "MEDIUM" [1; 2; 3; 4] [90; 91; 92; 93]]
  /\ completion_of (map lap_row Scenario.two_stints) 1 <> Continue.
Proof.
  assert (H : forall l, In l Scenario.two_stints ->
                        on_compound "MEDIUM" l = (lap_Stint (lap_row l) =? 1)).
  { intros l Hl. simpl in Hl.
    destruct Hl as [<-|[<-|[<-|[<-|[<-|[<-|[]]]]]]]; reflexivity. }
  destruct (compound_chart_matches_stint Scenario.two_stints "MEDIUM" 1 H)
    as [Hstep Hiff].
  split.
  - rewrite Hstep. vm_compute. reflexivity.
  - apply Hiff. rewrite Hstep. vm_compute. reflexivity.
Defined.

(** The charts of the compound loop. *)
Lemma degradation_charts_points (winner_laps : list CompoundLap) :
  (forall compound xs ys,
      In (Scatter compound xs ys) (degradation_charts winner_laps) ->
      (3 <= List.length xs)%nat
      /\ List.length xs = List.length ys
      /\ Forall (fun y => F64.notnan y = true) ys
      /\ In (Some compound) (map lap_Compound winner_laps))
  /\ (forall compound,
         (List.length (filter (fun shown =>
                                 match shown with
                                 | NotEnoughCleanLaps c | Scatter c _ _ =>
                                     String.eqb c compound
                                 end)
                              (degradation_charts winner_laps)) <= 1)%nat).
Proof.
  split.
  - intros compound xs ys Hin. unfold degradation_charts in Hin.
    apply in_flat_map in Hin. destruct Hin as (c & Hc & Hin).
    unfold compound_step in Hin.
    destruct (List.length _ <? 3)%nat; [destruct Hin as [Hin|[]]; discriminate|].
    destruct (2 <? List.length _)%nat eqn:E; [|destruct Hin].
    destruct Hin as [Hin|[]]. inversion Hin; subst c xs ys; clear Hin.
    apply Nat.ltb_lt in E. unfold StintLap. rewrite !length_map.
    split; [lia|]. split; [reflexivity|]. split.
    + apply Forall_forall. intros y Hy. apply in_map_iff in Hy.
      destruct Hy as (l & <- & Hl). unfold final_laps in Hl.
      apply filter_In in Hl. destruct Hl as [_ Hlt].
      destruct (ltb_cases _ _ Hlt) as (_ & _ & Hnan).
      unfold F64.notnan. now rewrite Hnan.
    + unfold compounds in Hc. apply unique_by_incl in Hc.
      apply in_flat_map in Hc. destruct Hc as (l & Hl & Hc).
      destruct (lap_Compound l) as [c'|] eqn:Ec; [|destruct Hc].
      destruct Hc as [<-|[]]. rewrite <- Ec. now apply in_map.
  - intros compound. unfold degradation_charts.
    pose proof (unique_str_NoDup
                  (flat_map (fun l => match lap_Compound l with
                                      | Some c => [c] | None => [] end)
                            winner_laps)) as Hnd.
    fold (compounds winner_laps) in Hnd.
    induction (compounds winner_laps) as [|c tl IH]; simpl; [lia|].
    inversion Hnd as [|? ? Hc Htl]; subst.
    rewrite filter_app, length_app.
    specialize (IH Htl).
    destruct (String.eqb c compound) eqn:E.
    + apply String.eqb_eq in E. subst c.
      assert (Hrest : filter (fun shown =>
                                match shown with
                                | NotEnoughCleanLaps c | Scatter c _ _ =>
                                    String.eqb c compound
                                end)
                             (flat_map (compound_step winner_laps) tl) = []).
      { clear IH Htl Hnd. induction tl as [|c' tl' IH']; [reflexivity|].
        simpl. rewrite filter_app, IH' by (simpl in Hc; tauto).
        rewrite app_nil_r.
        assert (Hne : String.eqb c' compound = false)
          by (apply String.eqb_neq; simpl in Hc; intros ->; tauto).
        unfold compound_step.
        destruct (List.length _ <? 3)%nat; simpl; [now rewrite Hne|].
        destruct (2 <? List.length _)%nat; simpl; [now rewrite Hne|reflexivity]. }
      rewrite Hrest. simpl. rewrite Nat.add_0_r.
      unfold compound_step.
      destruct (List.length _ <? 3)%nat; simpl;
        [destruct (String.eqb compound compound); simpl; lia|].
      destruct (2 <? List.length _)%nat; simpl;
        [destruct (String.eqb compound compound); simpl; lia|lia].
    + assert (Hhead : filter (fun shown =>
                                match shown with
                                | NotEnoughCleanLaps c | Scatter c _ _ =>
                                    String.eqb c compound
                                end)
                             (compound_step winner_laps c) = []).
      { unfold compound_step.
        destruct (List.length _ <? 3)%nat; simpl; [now rewrite E|].
        destruct (2 <? List.length _)%nat; simpl; [now rewrite E|reflexivity]. }
      rewrite Hhead. simpl. exact IH.
Qed.

(** X14: with an empty results table the degradation section draws
    nothing, whichever driver is picked, and that is the only case in
    which it fails.  When it gets through, the driver shown is the one
    picked, or the first of the results when none is picked; every chart
    it draws is for a compound the driver shown has laps on, has at least
    three points, as many stint-lap values as lap times, and no missing
    lap time; and no compound gets more than one chart or note. *)
Theorem degradation_section_charts
        (results : list Result) (laps : list CompoundLap)
        (selected_driver_deg : option string) :
  (results = [] <->
   degradation_section results laps selected_driver_deg = None)
  /\ forall driver shown,
      degradation_section results laps selected_driver_deg
      = Some (driver, shown) ->
      (exists winner rest,
          results = winner :: rest
          /\ match selected_driver_deg with
             | Some picked =>
                 (picked <> "" -> driver = picked)
                 /\ (picked = "" -> driver = res_Abbreviation winner)
             | None => driver = res_Abbreviation winner
             end)
      /\ (forall compound xs ys,
             In (Scatter compound xs ys) shown ->
             (3 <= List.length xs)%nat
             /\ List.length xs = List.length ys
             /\ Forall (fun y => F64.notnan y = true) ys
             /\ exists l, In l laps
                          /\ lap_Driver (lap_row l) = driver
                          /\ lap_Compound l = Some compound)
      /\ (forall compound,
             (List.length (filter (fun s =>
                                     match s with
                                     | NotEnoughCleanLaps c | Scatter c _ _ =>
                                         String.eqb c compound
                                     end)
                                  shown) <= 1)%nat).
Proof.
  unfold degradation_section.
  destruct results as [|winner rest].
  - split; [tauto|]. intros driver shown H. discriminate.
  - split; [split; discriminate|].
    cbv zeta. intros driver shown H. inversion H as [[Hd Hs]]. clear H.
    rewrite Hd in *.
    set (winner_laps := filter (fun l => String.eqb (lap_Driver (lap_row l)) driver)
                               laps) in *.
    destruct (degradation_charts_points winner_laps) as [Hpts Hone].
    split; [|split].
    + exists winner, rest. split; [reflexivity|].
      destruct selected_driver_deg as [picked|]; [|now symmetry].
      split.
      * intros Hne. apply String.eqb_neq in Hne. rewrite Hne in Hd. now symmetry.
      * intros ->. simpl in Hd. now symmetry.
    + intros compound xs ys Hin.
      destruct (Hpts compound xs ys Hin) as (H3 & Hlen & Hnn & Hc).
      repeat split; auto.
      apply in_map_iff in Hc. destruct Hc as (l & Hl & Hin').
      unfold winner_laps in Hin'. apply filter_In in Hin'.
      destruct Hin' as [Hin' Hdr]. apply String.eqb_eq in Hdr.
      exists l. auto.
    + exact Hone.
Qed.
